(** * AURA: per-call orchestration pipeline, shallow embedding

    The development follows the Python sources under [backend/]:

    - [agents/history_rl_agent.py]     -> [Module HistoryRL]
    - [agents/critic_ranker_agent.py]  -> [Module CriticRanker]
    - [agents/listener_agent.py]       -> [Module Listener]
    - [services/pipeline.py]           -> [Module Pipeline]

    Conventions of the embedding.

    - Python [float] values are idealised as exact rationals [Q]; equations
      between scores are stated with [==] ([Qeq]).  Python [int] is [Z].
      [Module Binary64] repeats the arithmetic of the two scoring formulas
      on IEEE 754 doubles, to show where the idealisation matters.
    - A [dict] used as a table ([persona_performance_cache],
      [active_calls], the customers table) is a [gmap] with string keys.
    - A [dict] used as a record (a sentiment, an outcome, a plan) is a
      Rocq record; a key that the code reads with [.get(k, default)] is an
      [option] field and the default is written out where it is read.
    - Exceptions are values: a fallible step returns [Raised msg] or
      [Returned v], and [try/except] is written out at the place where the
      source has it.
    - Instance attributes mutated in place are threaded explicitly. *)

From Stdlib Require Import QArith Qminmax Lqa ZArith PrimFloat.
From stdpp Require Import gmap strings list fin_maps sorting pretty.

Local Open Scope string_scope.

(** ** Shared vocabulary *)

(** [x < y] on Python floats, as a boolean. *)
Definition Qltb (x y : Q) : bool := negb (Qle_bool y x).

(** A key of a JSON object received from a client: absent, present with
    [null], or present with a value. *)
Inductive jfield (A : Type) : Type :=
| Missing
| JNull
| JVal (a : A).
Arguments Missing {A}.
Arguments JNull {A}.
Arguments JVal {A} a.

(** Python truthiness of [d.get(k)] for a boolean-valued key. *)
Definition truthy (f : jfield bool) : bool :=
  match f with
  | JVal b => b
  | _ => false
  end.

(** Result of a step that may raise. *)
Inductive outcome_of (A : Type) : Type :=
| Returned (a : A)
| Raised (msg : string).
Arguments Returned {A} a.
Arguments Raised {A} msg.

(** The sentiment dictionary produced by the interpreter. *)
Record Sentiment : Type := mkSentiment {
  polarity : option Q;
  emotion : option string;
  confidence : option Q
}.

(** The call outcome reported at [call_end]. *)
Record Outcome : Type := mkOutcome {
  satisfaction : jfield Q;
  resolved : jfield bool
}.

(** ** history_rl_agent.py *)

Module HistoryRL.

Local Open Scope Q_scope.

Definition PERSONA_TYPES : list string :=
  [ "empathetic_authoritative";
    "efficient_solution_focused";
    "friendly_casual";
    "professional_formal";
    "patient_educational";
    "assertive_direct";
    "supportive_encouraging";
    "analytical_detailed" ].

(** One value of [persona_performance_cache]. *)
Record Performance : Type := mkPerformance {
  success_rate : Q;
  satisfaction_avg : Q;
  resolution_rate : Q;
  call_count : Z
}.

Definition default_performance : Performance :=
  {| success_rate := 0.5;
     satisfaction_avg := 0.5;
     resolution_rate := 0.5;
     call_count := 0 |}.

(** [f"{customer_type}:{persona}"] *)
Definition performance_key (customer_type persona : string) : string :=
  customer_type +:+ ":" +:+ persona.

(** The composite score of one persona, with the boost for personas that
    have been used before. *)
Definition persona_score (performance : Performance) : Q :=
  let score :=
    success_rate performance * 0.4 +
    satisfaction_avg performance * 0.3 +
    resolution_rate performance * 0.3 in
  if (0 <? call_count performance)%Z then score * 1.1 else score.

(** One iteration of the loop over [PERSONA_TYPES]; the accumulator is
    [(best_persona, best_score)]. *)
Definition scan_step (cache : gmap string Performance) (customer_type : string)
    (best : option string * Q) (persona : string) : option string * Q :=
  let performance :=
    default default_performance (cache !! performance_key customer_type persona) in
  let score := persona_score performance in
  if Qltb (snd best) score then (Some persona, score) else best.

Definition scan_personas (cache : gmap string Performance) (customer_type : string)
    : option string * Q :=
  fold_left (scan_step cache customer_type) PERSONA_TYPES (None, 0).

(** [not best_persona or best_score < 0.3] *)
Definition needs_fallback (best : option string * Q) : bool :=
  match fst best with
  | None => true
  | Some p => String.eqb p "" || Qltb (snd best) 0.3
  end.

Definition string_in (s : string) (l : list string) : bool :=
  existsb (String.eqb s) l.

(** The sentiment and intent cascade of the fallback branch. *)
Definition fallback_persona (intent : option string) (sentiment : Sentiment) : string :=
  let sentiment_polarity := default 0.0 (polarity sentiment) in
  let emotion := default "neutral" (emotion sentiment) in
  if Qltb sentiment_polarity (-0.3) || string_in emotion ["angry"; "frustrated"] then
    "empathetic_authoritative"
  else if bool_decide (intent = Some "technical_support") then
    "patient_educational"
  else if bool_decide (intent = Some "billing_inquiry") then
    "efficient_solution_focused"
  else
    "friendly_casual".

(** [best_persona or "friendly_casual"] *)
Definition or_friendly (best_persona : option string) : string :=
  match best_persona with
  | Some p => if String.eqb p "" then "friendly_casual" else p
  | None => "friendly_casual"
  end.

Definition select_optimal_persona (cache : gmap string Performance)
    (customer_type : string) (intent : option string) (sentiment : Sentiment) : string :=
  let best := scan_personas cache customer_type in
  let best_persona :=
    if needs_fallback best then Some (fallback_persona intent sentiment)
    else fst best in
  or_friendly best_persona.

(** Learning rate of the moving average. *)
Definition alpha : Q := 0.1.

Definition with_satisfaction_avg (perf : Performance) (v : Q) : Performance :=
  {| success_rate := success_rate perf;
     satisfaction_avg := v;
     resolution_rate := resolution_rate perf;
     call_count := call_count perf |}.

Definition with_resolution_rate (perf : Performance) (v : Q) : Performance :=
  {| success_rate := success_rate perf;
     satisfaction_avg := satisfaction_avg perf;
     resolution_rate := v;
     call_count := call_count perf |}.

Definition with_success_rate (perf : Performance) (v : Q) : Performance :=
  {| success_rate := v;
     satisfaction_avg := satisfaction_avg perf;
     resolution_rate := resolution_rate perf;
     call_count := call_count perf |}.

Definition with_call_count (perf : Performance) (n : Z) : Performance :=
  {| success_rate := success_rate perf;
     satisfaction_avg := satisfaction_avg perf;
     resolution_rate := resolution_rate perf;
     call_count := n |}.

(** The statements of the [try] body that work on the entry [perf], in
    source order.  [alpha * outcome["satisfaction"]] raises [TypeError]
    when the key is present with value [None], before anything is
    assigned. *)
Definition update_entry (perf : Performance) (outcome : Outcome)
    : outcome_of Performance :=
  let call_count0 := call_count perf in
  match satisfaction outcome with
  | JNull => Raised "unsupported operand type(s) for *: 'float' and 'NoneType'"
  | sat =>
    let perf1 :=
      match sat with
      | JVal s =>
        with_satisfaction_avg perf (alpha * s + (1 - alpha) * satisfaction_avg perf)
      | _ => perf
      end in
    let perf2 :=
      match resolved outcome with
      | Missing => perf1
      | r =>
        with_resolution_rate perf1
          (alpha * (if truthy r then 1.0 else 0.0) + (1 - alpha) * resolution_rate perf1)
      end in
    let perf3 :=
      with_success_rate perf2
        (satisfaction_avg perf2 * 0.6 + resolution_rate perf2 * 0.4) in
    Returned (with_call_count perf3 (call_count0 + 1))
  end.

(** The cache after [if key not in self.persona_performance_cache: ...]. *)
Definition ensure_entry (cache : gmap string Performance) (key : string)
    : gmap string Performance :=
  match cache !! key with
  | Some _ => cache
  | None => <[key := default_performance]> cache
  end.

(** [update_persona_performance]: the new cache, and [Some msg] when the
    [except] branch logged an error.  The entry is a dictionary mutated in
    place, so an update that raises leaves the entry as it was.  The
    write of the entry to the database that is scheduled afterwards does
    not touch the cache and is left out. *)
Definition update_persona_performance (cache : gmap string Performance)
    (customer_type persona_type : string) (outcome : Outcome)
    : gmap string Performance * option string :=
  let key := performance_key customer_type persona_type in
  let cache1 := ensure_entry cache key in
  let perf := default default_performance (cache1 !! key) in
  match update_entry perf outcome with
  | Returned perf' => (<[key := perf']> cache1, None)
  | Raised msg => (cache1, Some msg)
  end.

(** The entry that the code works on for a key:
    [cache.get(key, default)]. *)
Definition entry_at (cache : gmap string Performance)
    (customer_type persona_type : string) : Performance :=
  default default_performance (cache !! performance_key customer_type persona_type).

(** The relation that [update_entry] establishes between the fields. *)
Definition consistent (perf : Performance) : Prop :=
  success_rate perf == 0.6 * satisfaction_avg perf + 0.4 * resolution_rate perf.

(** [{"satisfaction": 1.0, "resolved": True}] *)
Definition best_outcome : Outcome :=
  {| satisfaction := JVal 1.0; resolved := JVal true |}.

(** The keys of a customer profile that the classification reads. *)
Record Profile : Type := mkProfile {
  total_calls : option Z;
  profile_satisfaction_avg : option Q
}.

Definition classify_customer_type (customer_profile : Profile)
    (current_intent : option string) (current_sentiment : Sentiment) : string :=
  let total_calls := default 0%Z (total_calls customer_profile) in
  let satisfaction := default 0.0 (profile_satisfaction_avg customer_profile) in
  let sentiment_polarity := default 0.0 (polarity current_sentiment) in
  if (total_calls =? 0)%Z then "new"
  else if (10 <? total_calls)%Z && Qltb 0.7 satisfaction then "loyal_positive"
  else if Qltb sentiment_polarity (-0.3) then "frustrated"
  else if bool_decide (current_intent = Some "complaint") then "complainer"
  else if (5 <? total_calls)%Z then "repeat"
  else "regular".

(** A rate: a number between 0 and 1. *)
Definition is_rate (q : Q) : Prop := 0 <= q <= 1.

End HistoryRL.

(** ** critic_ranker_agent.py *)

Module CriticRanker.

Local Open Scope Q_scope.

(** A response option produced by the planner. *)
Record ResponseOption : Type := mkResponseOption {
  id : option string;
  text : option string;
  tone : option string
}.

(** One predicted customer reaction. *)
Record Reaction : Type := mkReaction {
  probability : option Q;
  resolution_likelihood : option Q
}.

(** The dialogue plan of one response option. *)
Record DialoguePlan : Type := mkDialoguePlan {
  response_option : option ResponseOption;
  predicted_reactions : option (list Reaction);
  expected_resolution_probability : option Q;
  expected_sentiment_improvement : option Q
}.

(** The customer profile handed to the ranker as [customer_context]. *)
Record CustomerContext : Type := mkCustomerContext {
  customer_type : option string;
  satisfaction_avg : option Q;
  resolution_rate : option Q;
  intent : option string
}.

Record Breakdown : Type := mkBreakdown {
  b_resolution_probability : Q;
  b_satisfaction_estimate : Q;
  b_sentiment_improvement : Q;
  b_efficiency : Q
}.

(** The dictionary returned by [score_response]; the [except] branch
    fills only [response_id], [score] and [error]. *)
Record ScoreResult : Type := mkScoreResult {
  response_id : string;
  score : Q;
  value_estimate : option Q;
  composite_score : option Q;
  breakdown : option Breakdown;
  ranking : option Z;
  error : option string
}.

(** [self.weights] as set by [__init__]. *)
Record Weights : Type := mkWeights {
  w_resolution_probability : Q;
  w_satisfaction_score : Q;
  w_sentiment_improvement : Q;
  w_efficiency : Q
}.

Definition initial_weights : Weights :=
  {| w_resolution_probability := 0.4;
     w_satisfaction_score := 0.3;
     w_sentiment_improvement := 0.2;
     w_efficiency := 0.1 |}.

Definition state_dim : nat := 128.

(** [s.count(pat)] for a non-empty [pat]: occurrences that do not
    overlap, counted from the left.  [skip] is the number of characters
    still covered by the last match. *)
Fixpoint count_from (pat : string) (skip : nat) (s : string) : nat :=
  match s with
  | EmptyString => 0
  | String _ rest =>
    match skip with
    | S k => count_from pat k rest
    | O =>
      if String.prefix pat s
      then S (count_from pat (String.length pat - 1) rest)
      else count_from pat 0 rest
    end
  end.

Definition str_count (s pat : string) : nat := count_from pat 0 s.

Definition Qsum (l : list Q) : Q := fold_right Qplus 0 l.

(** [np.mean] of a non-empty list. *)
Definition mean (l : list Q) : Q := Qsum l / inject_Z (Z.of_nat (length l)).

Definition Qlen (s : string) : Q := inject_Z (Z.of_nat (String.length s)).

Section Scoring.

(** The builtin [hash] on strings (salted per process). *)
Variable py_hash : string -> Z.

(** The value network in evaluation mode, as a function of the encoded
    state; [None] when [initialize] could not build it. *)
Variable value_network : option (list Q -> Q).

Variable weights : Weights.

Definition hash_feature (s : string) : Q :=
  inject_Z (py_hash s mod 100) / 100.0.

Definition _encode_state (response_option : ResponseOption) (dialogue_plan : DialoguePlan)
    (customer_context : CustomerContext) (current_sentiment : Sentiment) : list Q :=
  let response_text := default "" (text response_option) in
  let reactions := default [] (predicted_reactions dialogue_plan) in
  let '(avg_resolution, avg_prob, sentiment_improvement) :=
    match reactions with
    | [] => (0.5, 0.0, 0.0)
    | _ =>
      (mean (map (fun r => default 0.5 (resolution_likelihood r)) reactions),
       mean (map (fun r => default 0.0 (probability r)) reactions),
       default 0.0 (expected_sentiment_improvement dialogue_plan))
    end in
  let features :=
    [ Qlen response_text / 500.0;
      inject_Z (Z.of_nat (str_count (default "" (tone response_option)) "positive")) / 10.0;
      avg_resolution;
      avg_prob;
      sentiment_improvement;
      hash_feature (default "unknown" (customer_type customer_context));
      default 0.5 (satisfaction_avg customer_context);
      default 0.5 (resolution_rate customer_context);
      default 0.0 (polarity current_sentiment);
      default 0.5 (confidence current_sentiment);
      hash_feature (default "other" (intent customer_context)) ] in
  take state_dim (features ++ replicate (state_dim - length features) 0.0).

(** [self.value_network(state).item()]; calling [None] raises. *)
Definition call_value_network (state : list Q) : outcome_of Q :=
  match value_network with
  | Some forward => Returned (forward state)
  | None => Raised "'NoneType' object is not callable"
  end.

Definition efficiency_of (response_option : ResponseOption) : Q :=
  let response_length := Qlen (default "" (text response_option)) in
  Qmax 0.0 (1.0 - (response_length - 50) / 200.0).

Definition composite_of (response_option : ResponseOption) (dialogue_plan : DialoguePlan) : Q :=
  let resolution_score := default 0.5 (expected_resolution_probability dialogue_plan) in
  let sentiment_improvement := default 0.0 (expected_sentiment_improvement dialogue_plan) in
  let satisfaction_estimate := 0.5 + sentiment_improvement in
  let efficiency_score := efficiency_of response_option in
  w_resolution_probability weights * resolution_score +
  w_satisfaction_score weights * satisfaction_estimate +
  w_sentiment_improvement weights * (sentiment_improvement + 0.5) +
  w_efficiency weights * efficiency_score.

Definition score_response (response_option : ResponseOption) (dialogue_plan : DialoguePlan)
    (customer_context : CustomerContext) (current_sentiment : Sentiment) : ScoreResult :=
  let state :=
    _encode_state response_option dialogue_plan customer_context current_sentiment in
  match call_value_network state with
  | Returned value_estimate =>
    let resolution_score := default 0.5 (expected_resolution_probability dialogue_plan) in
    let sentiment_improvement := default 0.0 (expected_sentiment_improvement dialogue_plan) in
    let satisfaction_estimate := 0.5 + sentiment_improvement in
    let efficiency_score := efficiency_of response_option in
    let composite_score := composite_of response_option dialogue_plan in
    let final_score := 0.6 * composite_score + 0.4 * (value_estimate + 0.5) in
    {| response_id := default "" (id response_option);
       score := final_score;
       value_estimate := Some value_estimate;
       composite_score := Some composite_score;
       breakdown :=
         Some {| b_resolution_probability := resolution_score;
                 b_satisfaction_estimate := satisfaction_estimate;
                 b_sentiment_improvement := sentiment_improvement;
                 b_efficiency := efficiency_score |};
       ranking := Some 0%Z;
       error := None |}
  | Raised e =>
    {| response_id := default "" (id response_option);
       score := 0.5;
       value_estimate := None;
       composite_score := None;
       breakdown := None;
       ranking := None;
       error := Some e |}
  end.

(** One element of the list returned by [rank_responses]: the merge
    [{**response_option, **score_result, "predicted_reactions": ...}] with
    the ["ranking"] key assigned after the sort. *)
Record RankedResponse : Type := mkRankedResponse {
  rr_option : ResponseOption;
  rr_result : ScoreResult;
  rr_predicted_reactions : list Reaction;
  rr_ranking : Z
}.

Definition empty_option : ResponseOption :=
  {| id := None; text := None; tone := None |}.

(** [x.get("score", 0.0)]; both branches of [score_response] set the key. *)
Definition sort_key (x : RankedResponse) : Q := score (rr_result x).

(** [list.sort(key=..., reverse=True)] is stable: among equal scores the
    input order is kept. *)
Fixpoint insert_desc (x : RankedResponse) (l : list RankedResponse) : list RankedResponse :=
  match l with
  | [] => [x]
  | y :: rest =>
    if Qltb (sort_key x) (sort_key y) then y :: insert_desc x rest
    else x :: y :: rest
  end.

Definition sort_desc (l : list RankedResponse) : list RankedResponse :=
  fold_right insert_desc [] l.

Fixpoint add_ranking (i : Z) (l : list RankedResponse) : list RankedResponse :=
  match l with
  | [] => []
  | x :: rest =>
    {| rr_option := rr_option x;
       rr_result := rr_result x;
       rr_predicted_reactions := rr_predicted_reactions x;
       rr_ranking := (i + 1)%Z |} :: add_ranking (i + 1)%Z rest
  end.

Definition rank_responses (dialogue_plans : list DialoguePlan)
    (customer_context : CustomerContext) (current_sentiment : Sentiment)
    : list RankedResponse :=
  let scored_responses :=
    map (fun plan =>
           let response_option := default empty_option (response_option plan) in
           {| rr_option := response_option;
              rr_result :=
                score_response response_option plan customer_context current_sentiment;
              rr_predicted_reactions := default [] (predicted_reactions plan);
              rr_ranking := 0 |})
        dialogue_plans in
  add_ranking 0 (sort_desc scored_responses).

(** The scored candidate of a plan, as [rank_responses] builds it,
    before the sort. *)
Definition scored_of (customer_context : CustomerContext) (current_sentiment : Sentiment)
    (plan : DialoguePlan) : ResponseOption * ScoreResult * list Reaction :=
  let opt := default empty_option (response_option plan) in
  (opt,
   score_response opt plan customer_context current_sentiment,
   default [] (predicted_reactions plan)).

End Scoring.

(** [y] may stand after [x] in a ranking. *)
Definition before (x y : RankedResponse) : Prop := sort_key y <= sort_key x.

(** What the ranker holds for a candidate, without the ranking. *)
Definition content (r : RankedResponse) : ResponseOption * ScoreResult * list Reaction :=
  (rr_option r, rr_result r, rr_predicted_reactions r).

(** The candidates whose score is [k]. *)
Definition has_score (k : Q) (c : ResponseOption * ScoreResult * list Reaction) : bool :=
  Qeq_bool (score (snd (fst c))) k.

End CriticRanker.

(** ** planner_agent.py *)

Module Planner.

Local Open Scope Q_scope.

(** One element of the JSON array answered by the language model, or one
    template. *)
Record RawOption : Type := mkRawOption {
  response_text : option string;
  raw_text : option string;
  raw_tone : option string;
  raw_approach : option string
}.

(** A response option with its metadata. *)
Record ResponseOption : Type := mkResponseOption {
  id : string;
  text : string;
  tone : string;
  approach : string;
  persona : option string
}.

(** One predicted reaction of the customer.  Its numbers are the
    doubles of the code. *)
Record Reaction : Type := mkReaction {
  customer_response : option string;
  probability : option float;
  resulting_sentiment : option string;
  resolution_likelihood : option float;
  next_step : option string
}.

(** One element of the ["options"] list of a dialogue plan. *)
Record Plan : Type := mkPlan {
  response_option : ResponseOption;
  predicted_reactions : list Reaction;
  expected_sentiment_improvement : float;
  expected_resolution_probability : float
}.

(** The language model behind [openai_client]: the parsed answer to each
    of the two prompts, or the exception of the call or of the parse.  An
    element of the first answer that is not a JSON object is [None]. *)
Record Client : Type := mkClient {
  complete_options :
    string -> option string -> Sentiment -> option string ->
    outcome_of (list (option RawOption));
  complete_reactions :
    ResponseOption -> option string -> Sentiment -> outcome_of (list Reaction)
}.

Definition template (response tone approach : string) : RawOption :=
  {| response_text := Some response; raw_text := None;
     raw_tone := Some tone; raw_approach := Some approach |}.

Definition _generate_template_responses (intent : option string) : list RawOption :=
  if bool_decide (intent = Some "billing_inquiry") then
    [ template "I'd be happy to help you with your billing question. Let me pull up your account information."
        "helpful" "proactive";
      template "I understand you have a billing question. Can you provide me with your account number?"
        "professional" "information_gathering" ]
  else if bool_decide (intent = Some "technical_support") then
    [ template "I'm sorry you're experiencing this issue. Let me help you troubleshoot this step by step."
        "empathetic" "problem_solving";
      template "I can help you resolve this technical issue. Can you describe what's happening?"
        "supportive" "diagnostic" ]
  else if bool_decide (intent = Some "complaint") then
    [ template "I sincerely apologize for the inconvenience. Let me see what I can do to make this right."
        "apologetic" "resolution_focused";
      template "I understand your frustration. I want to help resolve this for you today."
        "empathetic" "acknowledgment" ]
  else
    [ template "I'm here to help. Can you tell me more about what you need?"
        "friendly" "information_gathering" ].

(** The metadata added to the option at position [i]. *)
Definition with_metadata (persona : option string) (i : nat) (option : RawOption)
    : ResponseOption :=
  {| id := "response_" +:+ pretty i;
     text := default (default "" (raw_text option)) (response_text option);
     tone := default "" (raw_tone option);
     approach := default "" (raw_approach option);
     persona := persona |}.

(** The loop over [enumerate(options)]: elements that are not objects
    are skipped, and keep their number. *)
Fixpoint number_options (persona : option string) (i : nat)
    (options : list (option RawOption)) : list ResponseOption :=
  match options with
  | [] => []
  | Some option :: rest =>
    with_metadata persona i option :: number_options persona (S i) rest
  | None :: rest => number_options persona (S i) rest
  end.

Set Warnings "-inexact-float".

(** [_estimate_reactions_fallback].  The polarity stands for the exact
    value of the double of the code; no double lies between -0.3 and the
    double nearest to it, so the test on the exact values is the test of
    the code. *)
Definition _estimate_reactions_fallback (current_sentiment : Sentiment) : list Reaction :=
  let sentiment_polarity := default 0.0 (polarity current_sentiment) in
  if Qltb sentiment_polarity (-0.3) then
    [ {| customer_response := Some "That's helpful, thank you";
         probability := Some 0.4%float;
         resulting_sentiment := Some "neutral";
         resolution_likelihood := Some 0.6%float;
         next_step := Some "Customer accepts solution" |};
      {| customer_response := Some "I'm still not satisfied";
         probability := Some 0.5%float;
         resulting_sentiment := Some "negative";
         resolution_likelihood := Some 0.3%float;
         next_step := Some "Escalation needed" |};
      {| customer_response := Some "Okay, let's try that";
         probability := Some 0.1%float;
         resulting_sentiment := Some "positive";
         resolution_likelihood := Some 0.8%float;
         next_step := Some "Proceed with solution" |} ]
  else
    [ {| customer_response := Some "That sounds good";
         probability := Some 0.7%float;
         resulting_sentiment := Some "positive";
         resolution_likelihood := Some 0.9%float;
         next_step := Some "Resolution in progress" |};
      {| customer_response := Some "I need to think about it";
         probability := Some 0.2%float;
         resulting_sentiment := Some "neutral";
         resolution_likelihood := Some 0.5%float;
         next_step := Some "Follow-up needed" |};
      {| customer_response := Some "Actually, I have another question";
         probability := Some 0.1%float;
         resulting_sentiment := Some "neutral";
         resolution_likelihood := Some 0.4%float;
         next_step := Some "Additional inquiry" |} ].

(** The contribution of one reaction to the improvement; each operation
    rounds to the nearest double. *)
Definition improvement_step (improvement : float) (reaction : Reaction) : float :=
  let prob := default 0.0%float (probability reaction) in
  let sentiment := default "neutral" (resulting_sentiment reaction) in
  if String.eqb sentiment "positive" then (improvement + prob * 0.5)%float
  else if String.eqb sentiment "negative" then (improvement - prob * 0.3)%float
  else improvement.

Definition _calculate_sentiment_improvement (reactions : list Reaction) : float :=
  match reactions with
  | [] => 0.0%float
  | _ => fold_left improvement_step reactions 0.0%float
  end.

(** One iteration of the loop of [_calculate_resolution_probability];
    the accumulator is [(total_prob, total_weight)]. *)
Definition resolution_step (acc : float * float) (reaction : Reaction) : float * float :=
  let prob := default 0.0%float (probability reaction) in
  let resolution := default 0.5%float (resolution_likelihood reaction) in
  ((fst acc + prob * resolution)%float, (snd acc + prob)%float).

Definition _calculate_resolution_probability (reactions : list Reaction) : float :=
  match reactions with
  | [] => 0.5%float
  | _ =>
    let '(total_prob, total_weight) :=
      fold_left resolution_step reactions (0.0%float, 0.0%float) in
    if (0 <? total_weight)%float then (total_prob / total_weight)%float else 0.5%float
  end.

(** The expectations of the plans made from the fallback reactions, with
    the digits that Python prints for them. *)
Definition fallback_improvement (low : bool) : float :=
  if low then (-0.09999999999999999)%float else 0.35%float.

Definition fallback_resolution (low : bool) : float :=
  if low then 0.47000000000000003%float else 0.7700000000000001%float.

Set Warnings "inexact-float".

Section WithClient.

Variable openai_client : option Client.

(** [generate_response_options]; the sentiment is read while the prompt
    is built, so a missing sentiment raises inside the [try] and gives the
    empty list, as every other failure does. *)
Definition generate_response_options (customer_utterance : string)
    (intent : option string) (sentiment : option Sentiment) (persona : option string)
    : list ResponseOption :=
  match sentiment with
  | None => []
  | Some sentiment =>
    match openai_client with
    | Some client =>
      match complete_options client customer_utterance intent sentiment persona with
      | Returned options => number_options persona 0 options
      | Raised _ => []
      end
    | None => number_options persona 0 (map Some (_generate_template_responses intent))
    end
  end.

(** [predict_customer_reactions] *)
Definition predict_customer_reactions (response_option : ResponseOption)
    (customer_type : option string) (current_sentiment : option Sentiment)
    : list Reaction :=
  match current_sentiment with
  | None => []
  | Some current_sentiment =>
    match openai_client with
    | Some client =>
      match complete_reactions client response_option customer_type current_sentiment with
      | Returned reactions => reactions
      | Raised _ => []
      end
    | None => _estimate_reactions_fallback current_sentiment
    end
  end.

(** The ["options"] of [plan_dialogue]. *)
Definition plan_dialogue (customer_utterance : string) (intent : option string)
    (sentiment : option Sentiment) (persona : option string)
    (customer_type : option string) : list Plan :=
  map (fun option =>
         let reactions := predict_customer_reactions option customer_type sentiment in
         {| response_option := option;
            predicted_reactions := reactions;
            expected_sentiment_improvement := _calculate_sentiment_improvement reactions;
            expected_resolution_probability :=
              _calculate_resolution_probability reactions |})
      (generate_response_options customer_utterance intent sentiment persona).

End WithClient.

End Planner.

(** ** listener_agent.py: turn detection *)

Module Listener.

Local Open Scope Q_scope.

(** The attributes of [ListenerAgent] that [detect_turn_boundary] uses. *)
Record State : Type := mkState {
  silence_threshold_ms : Z;
  last_speech_time : option Q
}.

(** [settings.VAD_SILENCE_THRESHOLD_MS] *)
Definition VAD_SILENCE_THRESHOLD_MS : Z := 650.

(** The state set up by [__init__]. *)
Definition init (threshold_ms : Z) : State :=
  {| silence_threshold_ms := threshold_ms; last_speech_time := None |}.

Definition with_last_speech_time (self : State) (t : option Q) : State :=
  {| silence_threshold_ms := silence_threshold_ms self; last_speech_time := t |}.

(** Threshold for silence, a local constant of the method. *)
Definition silence_threshold : Q := 500.

(** The part of [detect_turn_boundary] after the energy is known. *)
Definition observe (self : State) (energy current_time : Q) : bool * State :=
  if Qltb energy silence_threshold then
    match last_speech_time self with
    | None => (false, with_last_speech_time self (Some current_time))
    | Some started =>
      let silence_duration := (current_time - started) * 1000 in
      if Qle_bool (inject_Z (silence_threshold_ms self)) silence_duration
      then (true, with_last_speech_time self None)
      else (false, self)
    end
  else (false, with_last_speech_time self None).

(** A byte is a [Z] in [0, 255].  [np.frombuffer(audio_data, dtype=np.int16)]
    reads little-endian two-byte signed samples and raises [ValueError] on
    a buffer of odd length. *)
Definition int16_of_bytes (lo hi : Z) : Z :=
  let u := (lo + 256 * hi)%Z in
  if (u <? 32768)%Z then u else (u - 65536)%Z.

Fixpoint frombuffer_int16 (audio_data : list Z) : option (list Z) :=
  match audio_data with
  | [] => Some []
  | lo :: hi :: rest => cons (int16_of_bytes lo hi) <$> frombuffer_int16 rest
  | [_] => None
  end.

(** [np.abs] on [int16]: the result wraps, so the least value is its own
    absolute value. *)
Definition abs_int16 (x : Z) : Z :=
  if (x =? -32768)%Z then x else Z.abs x.

Definition energy_of (audio_array : list Z) : Q :=
  inject_Z (fold_right Z.add 0%Z (map abs_int16 audio_array))
  / inject_Z (Z.of_nat (length audio_array)).

Definition detect_turn_boundary (self : State) (audio_data : list Z) (current_time : Q)
    : outcome_of (bool * State) :=
  if (length audio_data <? 2)%nat then Returned (false, self)
  else
    match frombuffer_int16 audio_data with
    | None => Raised "buffer size must be a multiple of element size"
    | Some audio_array => Returned (observe self (energy_of audio_array) current_time)
    end.

(** A sample of the stream: [(energy, timestamp)]. *)
Definition sample : Type := (Q * Q)%type.

Definition is_silent (s : sample) : bool := Qltb (fst s) silence_threshold.

(** Feeding a sequence of samples to one detector: the signals in order,
    and the final state. *)
Fixpoint observe_all (self : State) (samples : list sample) : list bool * State :=
  match samples with
  | [] => ([], self)
  | s :: rest =>
    let '(signal, self') := observe self (fst s) (snd s) in
    let '(signals, final) := observe_all self' rest in
    (signal :: signals, final)
  end.

Definition signals (threshold_ms : Z) (samples : list sample) : list bool :=
  fst (observe_all (init threshold_ms) samples).


(** The dictionary returned by [transcribe_audio_chunk], without its
    ["timestamp"], which the pipeline does not read. *)
Record Transcription : Type := mkTranscription {
  transcript : string;
  transcription_confidence : Q;
  is_final : bool
}.

Definition MOCK_TRANSCRIPT : string :=
  "[Mock: Audio received, transcription service not configured]".

(** [transcribe_audio_chunk] of an agent without a speech client: bytes
    that decode to a text that is not empty are that text, everything
    else is the mock transcript.  [decode] is [bytes.decode('utf-8')]. *)
Definition transcribe_without_client (decode : list Z -> option string)
    (audio_data : list Z) (final : bool) : Transcription :=
  let mock :=
    {| transcript := MOCK_TRANSCRIPT; transcription_confidence := 0.8; is_final := final |} in
  match decode audio_data with
  | Some text =>
    if negb (String.eqb text "")
    then {| transcript := text; transcription_confidence := 0.9; is_final := final |}
    else mock
  | None => mock
  end.

(** The bytes of [n] samples of the least 16-bit value. *)
Definition clipped_chunk (n : nat) : list Z := concat (replicate n [0; 128]%Z).


End Listener.

(** ** services/pipeline.py *)

Module Pipeline.

Local Open Scope Q_scope.

(** [settings.MAX_LATENCY_MS] *)
Definition MAX_LATENCY_MS : Z := 3000.

Record TranscriptEntry : Type := mkTranscriptEntry {
  te_text : string;
  te_timestamp : Z;
  te_speaker : string
}.

(** The ["intent"] dictionary of an interpretation. *)
Record IntentInfo : Type := mkIntentInfo {
  intent_name : option string;
  intent_confidence : option Q
}.

(** What [interpreter.interpret] returns. *)
Record Interpretation : Type := mkInterpretation {
  i_intent : option IntentInfo;
  i_sentiment : option Sentiment;
  i_entities : option (list string)
}.

(** What [history_rl.get_customer_context] returns. *)
Record Context : Type := mkContext {
  customer_profile : option CriticRanker.CustomerContext;
  customer_type : option string;
  ctx_selected_persona : option string
}.

(** What [planner.plan_dialogue] returns. *)
Record DialoguePlans : Type := mkDialoguePlans {
  options : option (list CriticRanker.DialoguePlan)
}.

Record ResponseEntry : Type := mkResponseEntry {
  re_timestamp : Z;
  re_ranked_responses : list CriticRanker.RankedResponse
}.

(** One value of [active_calls]. *)
Record CallState : Type := mkCallState {
  call_id : string;
  customer_id : string;
  start_time : Z;
  transcripts : list TranscriptEntry;
  interpretations : list Interpretation;
  responses : list ResponseEntry;
  current_intent : option string;
  current_sentiment : option Sentiment;
  selected_persona : option string;
  customer_context : option Context
}.

(** A row of the [customers] table. *)
Record Customer : Type := mkCustomer {
  total_calls : Z;
  satisfaction_avg : Q;
  resolution_rate : Q
}.

(** A row of the [call_history] table; its primary key is the call id. *)
Record CallHistory : Type := mkCallHistory {
  ch_customer_id : string;
  ch_persona_used : option string;
  ch_intent : option string;
  ch_satisfaction_score : jfield Q;
  ch_resolved : bool;
  ch_duration_seconds : Z
}.

(** The stages behind the orchestrator. *)
Inductive Stage : Type :=
| SListener
| SInterpreter
| SHistoryRL
| SPlanner
| SCriticRanker.

(** Everything the pipeline reads and writes.  [tick] counts the calls
    made to the outside (agents, clocks, [uuid4]); [invoked] is the list
    of agent calls made so far, oldest first; [logs] collects the
    messages given to [logger]. *)
Record World : Type := mkWorld {
  active_calls : gmap string CallState;
  persona_performance_cache : gmap string HistoryRL.Performance;
  customers : gmap string Customer;
  call_history : gmap string CallHistory;
  db_available : bool;
  invoked : list Stage;
  logs : list string;
  tick : nat
}.

(** The agent calls made between two worlds were all made to the
    listener. *)
Definition listener_only (w w' : World) : Prop :=
  exists l, invoked w' = (invoked w ++ l)%list /\ Forall (fun st => st = SListener) l.

(** The agents and the clocks.  Each takes the number of the call, so
    that two calls with equal arguments may answer differently, and an
    agent may raise. *)
Record Agents : Type := mkAgents {
  decode_utf8 : list Z -> option string;
  transcribe_audio_chunk : nat -> list Z -> outcome_of string;
  interpret : nat -> string -> option Context -> outcome_of Interpretation;
  get_customer_context :
    nat -> string -> option string -> option Sentiment -> outcome_of Context;
  plan_dialogue :
    nat -> string -> option string -> option Sentiment -> option string -> Context ->
    outcome_of DialoguePlans;
  rank_responses :
    nat -> list CriticRanker.DialoguePlan -> CriticRanker.CustomerContext ->
    option Sentiment -> outcome_of (list CriticRanker.RankedResponse);
  utcnow : nat -> Z;
  loop_time : nat -> Q;
  uuid4_hex8 : nat -> string
}.

(** The value passed as [audio_data]: [bytes], or a [str] that the
    WebSocket handler could not decode. *)
Inductive AudioData : Type :=
| Bytes (b : list Z)
| Text (s : string).

(** The dictionary returned by [process_audio_chunk]. *)
Record TurnResult : Type := mkTurnResult {
  r_call_id : string;
  r_status : string;
  r_transcript : option string;
  r_error : option string;
  r_latency_ms : option Q;
  r_interpretation : option Interpretation;
  r_customer_type : option string;
  r_selected_persona : option string;
  r_ranked_responses : list CriticRanker.RankedResponse;
  r_timestamp : option Z
}.

(** *** A state monad with exceptions

    A raised exception keeps the mutations made before it. *)
Definition M (A : Type) : Type := World -> outcome_of A * World.

Definition ret {A} (a : A) : M A := fun w => (Returned a, w).

Definition raise {A} (msg : string) : M A := fun w => (Raised msg, w).

Definition bind {A B} (m : M A) (k : A -> M B) : M B :=
  fun w =>
    match m w with
    | (Returned a, w') => k a w'
    | (Raised e, w') => (Raised e, w')
    end.

(** [try: body / except Exception as e: handler(e)] *)
Definition try_except {A} (body : M A) (handler : string -> M A) : M A :=
  fun w =>
    match body w with
    | (Returned a, w') => (Returned a, w')
    | (Raised e, w') => handler e w'
    end.

Notation "'do' x <- m ; k" := (bind m (fun x => k))
  (at level 10, x name, m at level 100, k at level 200, only parsing).

Definition gets {A} (f : World -> A) : M A := fun w => (Returned (f w), w).

Definition modify (f : World -> World) : M unit := fun w => (Returned tt, f w).

Definition set_active_calls (f : gmap string CallState -> gmap string CallState)
    (w : World) : World :=
  {| active_calls := f (active_calls w);
     persona_performance_cache := persona_performance_cache w;
     customers := customers w;
     call_history := call_history w;
     db_available := db_available w;
     invoked := invoked w;
     logs := logs w;
     tick := tick w |}.

Definition set_persona_performance_cache (c : gmap string HistoryRL.Performance)
    (w : World) : World :=
  {| active_calls := active_calls w;
     persona_performance_cache := c;
     customers := customers w;
     call_history := call_history w;
     db_available := db_available w;
     invoked := invoked w;
     logs := logs w;
     tick := tick w |}.

Definition set_tables (cs : gmap string Customer) (h : gmap string CallHistory)
    (w : World) : World :=
  {| active_calls := active_calls w;
     persona_performance_cache := persona_performance_cache w;
     customers := cs;
     call_history := h;
     db_available := db_available w;
     invoked := invoked w;
     logs := logs w;
     tick := tick w |}.

Definition add_log (msg : string) (w : World) : World :=
  {| active_calls := active_calls w;
     persona_performance_cache := persona_performance_cache w;
     customers := customers w;
     call_history := call_history w;
     db_available := db_available w;
     invoked := invoked w;
     logs := logs w ++ [msg];
     tick := tick w |}.

Definition advance (stage : option Stage) (w : World) : World :=
  {| active_calls := active_calls w;
     persona_performance_cache := persona_performance_cache w;
     customers := customers w;
     call_history := call_history w;
     db_available := db_available w;
     invoked := invoked w ++ option_list stage;
     logs := logs w;
     tick := S (tick w) |}.

Definition log (msg : string) : M unit := modify (add_log msg).

(** Reading a clock or [uuid4]: never raises. *)
Definition ask {A} (f : nat -> A) : M A :=
  fun w => (Returned (f (tick w)), advance None w).

(** Awaiting an agent: the call is recorded, then its answer or its
    exception comes back. *)
Definition await {A} (stage : Stage) (f : nat -> outcome_of A) : M A :=
  fun w => (f (tick w), advance (Some stage) w).

(** In-place mutation of [call_state], the dictionary stored in
    [active_calls] under the call id. *)
Definition mutate_call (cid : string) (f : CallState -> CallState) : M unit :=
  modify (set_active_calls (alter f cid)).

(** [self.active_calls[call_id]] *)
Definition the_call (cid : string) : M CallState :=
  fun w =>
    match active_calls w !! cid with
    | Some cs => (Returned cs, w)
    | None => (Raised "KeyError", w)
    end.

Definition append_transcript (e : TranscriptEntry) (cs : CallState) : CallState :=
  {| call_id := call_id cs; customer_id := customer_id cs; start_time := start_time cs;
     transcripts := transcripts cs ++ [e];
     interpretations := interpretations cs;
     responses := responses cs;
     current_intent := current_intent cs;
     current_sentiment := current_sentiment cs;
     selected_persona := selected_persona cs;
     customer_context := customer_context cs |}.

Definition record_interpretation (i : Interpretation) (cs : CallState) : CallState :=
  {| call_id := call_id cs; customer_id := customer_id cs; start_time := start_time cs;
     transcripts := transcripts cs;
     interpretations := interpretations cs ++ [i];
     responses := responses cs;
     current_intent := i_intent i ≫= intent_name;
     current_sentiment := i_sentiment i;
     selected_persona := selected_persona cs;
     customer_context := customer_context cs |}.

Definition record_context (c : Context) (cs : CallState) : CallState :=
  {| call_id := call_id cs; customer_id := customer_id cs; start_time := start_time cs;
     transcripts := transcripts cs;
     interpretations := interpretations cs;
     responses := responses cs;
     current_intent := current_intent cs;
     current_sentiment := current_sentiment cs;
     selected_persona := ctx_selected_persona c;
     customer_context := Some c |}.

Definition append_response (e : ResponseEntry) (cs : CallState) : CallState :=
  {| call_id := call_id cs; customer_id := customer_id cs; start_time := start_time cs;
     transcripts := transcripts cs;
     interpretations := interpretations cs;
     responses := responses cs ++ [e];
     current_intent := current_intent cs;
     current_sentiment := current_sentiment cs;
     selected_persona := selected_persona cs;
     customer_context := customer_context cs |}.

Definition empty_profile : CriticRanker.CustomerContext :=
  {| CriticRanker.customer_type := None;
     CriticRanker.satisfaction_avg := None;
     CriticRanker.resolution_rate := None;
     CriticRanker.intent := None |}.

Section Orchestrator.

Variable agents : Agents.

(** The state that [start_call] stores. *)
Definition fresh_call_state (cid customer : string) (now : Z) : CallState :=
  {| call_id := cid;
     customer_id := customer;
     start_time := now;
     transcripts := [];
     interpretations := [];
     responses := [];
     current_intent := None;
     current_sentiment := None;
     selected_persona := None;
     customer_context := None |}.

Definition start_call (cid customer : string) : M unit :=
  do now <- ask (utcnow agents);
  do _ <- modify (set_active_calls (insert cid (fresh_call_state cid customer now)));
  log ("Started call " +:+ cid +:+ " for customer " +:+ customer).

(** [await self.listener.transcribe_audio_chunk(audio_data)] followed by
    [transcription.get("transcript", "")] *)
Definition listen (b : list Z) : M string :=
  await SListener (fun n => transcribe_audio_chunk agents n b).

(** Step 1: the transcript.  The inner [try] has a bare [except], which
    also catches a failure of the first transcription. *)
Definition obtain_transcript (audio_data : AudioData) : M string :=
  match audio_data with
  | Bytes b =>
    try_except
      (match decode_utf8 agents b with
       | None => raise "UnicodeDecodeError"
       | Some text_check =>
         if negb (String.eqb text_check "") && negb (String.prefix "[Mock:" text_check)
         then ret text_check
         else listen b
       end)
      (fun _ => listen b)
  | Text s => ret s
  end.

Definition processing_result (cid transcript : string) : TurnResult :=
  {| r_call_id := cid;
     r_status := "processing";
     r_transcript := Some transcript;
     r_error := None;
     r_latency_ms := None;
     r_interpretation := None;
     r_customer_type := None;
     r_selected_persona := None;
     r_ranked_responses := [];
     r_timestamp := None |}.

Definition error_result (cid e : string) : TurnResult :=
  {| r_call_id := cid;
     r_status := "error";
     r_transcript := None;
     r_error := Some e;
     r_latency_ms := None;
     r_interpretation := None;
     r_customer_type := None;
     r_selected_persona := None;
     r_ranked_responses := [];
     r_timestamp := None |}.

(** Steps 2 to 5 and the result, for a customer turn with text. *)
Definition analyse_turn (cid transcript speaker : string) (started : Q) : M TurnResult :=
  do now <- ask (utcnow agents);
  do _ <- mutate_call cid
    (append_transcript
       {| te_text := transcript; te_timestamp := now; te_speaker := speaker |});
  do cs <- the_call cid;
  do interpretation <-
    await SInterpreter (fun n => interpret agents n transcript (customer_context cs));
  do _ <- mutate_call cid (record_interpretation interpretation);
  do cs <- the_call cid;
  do context <-
    await SHistoryRL
      (fun n =>
         get_customer_context agents n
           (customer_id cs) (current_intent cs) (current_sentiment cs));
  do _ <- mutate_call cid (record_context context);
  do cs <- the_call cid;
  do dialogue_plan <-
    await SPlanner
      (fun n =>
         plan_dialogue agents n transcript
           (current_intent cs) (current_sentiment cs) (selected_persona cs) context);
  do ranked_responses <-
    await SCriticRanker
      (fun n =>
         rank_responses agents n
           (default [] (options dialogue_plan))
           (default empty_profile (customer_profile context))
           (current_sentiment cs));
  do now <- ask (utcnow agents);
  do _ <- mutate_call cid
    (append_response {| re_timestamp := now; re_ranked_responses := ranked_responses |});
  do finished <- ask (loop_time agents);
  let latency_ms := (finished - started) * 1000 in
  do now <- ask (utcnow agents);
  do _ <- (if Qltb (inject_Z MAX_LATENCY_MS) latency_ms
           then log "Latency exceeds target"
           else ret tt);
  ret {| r_call_id := cid;
         r_status := "complete";
         r_transcript := Some transcript;
         r_error := None;
         r_latency_ms := Some latency_ms;
         r_interpretation := Some interpretation;
         r_customer_type := customer_type context;
         r_selected_persona := ctx_selected_persona context;
         r_ranked_responses := take 5 ranked_responses;
         r_timestamp := Some now |}.

(** The body of the [try] of [process_audio_chunk]. *)
Definition turn_body (cid : string) (audio_data : AudioData) (speaker : string)
    (started : Q) : M TurnResult :=
  do transcript <- obtain_transcript audio_data;
  if String.eqb transcript "" || negb (String.eqb speaker "customer")
  then ret (processing_result cid transcript)
  else analyse_turn cid transcript speaker started.

(** [if call_id not in self.active_calls: ... await self.start_call(...)] *)
Definition ensure_call (cid : string) : M unit :=
  do known <- gets (fun w => bool_decide (is_Some (active_calls w !! cid)));
  if known then ret tt
  else
    do _ <- log ("Call " +:+ cid +:+ " not found, creating new call");
    do hex <- ask (uuid4_hex8 agents);
    start_call cid ("customer_" +:+ hex).

Definition process_audio_chunk (cid : string) (audio_data : AudioData) (speaker : string)
    : M TurnResult :=
  do _ <- ensure_call cid;
  do _ <- the_call cid;
  do started <- ask (loop_time agents);
  try_except
    (turn_body cid audio_data speaker started)
    (fun e =>
       do _ <- log ("Error processing audio chunk for call " +:+ cid +:+ ": " +:+ e);
       ret (error_result cid e)).

(** The update of the customer row inside the session of [end_call]. *)
Definition update_customer_metrics (customer : Customer) (outcome : Outcome)
    : outcome_of Customer :=
  let n := (total_calls customer + 1)%Z in
  let needs_division :=
    match satisfaction outcome with JVal _ => true | _ => truthy (resolved outcome) end in
  if needs_division && (n =? 0)%Z then Raised "float division by zero"
  else
    let satisfaction_avg' :=
      match satisfaction outcome with
      | JVal new_satisfaction =>
        (satisfaction_avg customer * inject_Z (n - 1) + new_satisfaction) / inject_Z n
      | _ => satisfaction_avg customer
      end in
    let resolution_rate' :=
      if truthy (resolved outcome)
      then (resolution_rate customer * inject_Z (n - 1) + 1.0) / inject_Z n
      else resolution_rate customer in
    Returned {| total_calls := n;
                satisfaction_avg := satisfaction_avg';
                resolution_rate := resolution_rate' |}.

(** The [async with get_db_session()] block: the history row is added,
    the customer row is updated, and the transaction is committed.  Any
    exception rolls the transaction back and is raised again.  The insert
    of the history row is such an exception when the table has a row with
    the same primary key, and when the customers table has no row for the
    customer of the call: [CallHistory.customer_id] is declared with
    [ForeignKey("customers.id")]. *)
Definition save_call (cid : string) (cs : CallState) (outcome : Outcome) : M unit :=
  do available <- gets db_available;
  if negb available then raise "database not available"
  else
    do now <- ask (utcnow agents);
    let row :=
      {| ch_customer_id := customer_id cs;
         ch_persona_used := selected_persona cs;
         ch_intent := current_intent cs;
         ch_satisfaction_score := satisfaction outcome;
         ch_resolved := truthy (resolved outcome);
         ch_duration_seconds := (now - start_time cs)%Z |} in
    do history <- gets call_history;
    do table <- gets customers;
    match history !! cid with
    | Some _ => raise "duplicate key value violates unique constraint"
    | None =>
      match table !! customer_id cs with
      | Some customer =>
        match update_customer_metrics customer outcome with
        | Returned customer' =>
          modify (set_tables (<[customer_id cs := customer']> table) (<[cid := row]> history))
        | Raised e => raise e
        end
      | None => raise "insert or update violates foreign key constraint"
      end
    end.

(** A string that is neither [None] nor empty, as tested by [if s]. *)
Definition nonempty (s : option string) : option string :=
  match s with
  | Some x => if String.eqb x "" then None else Some x
  | None => None
  end.

(** [await self.history_rl.update_persona_performance(...)] *)
Definition report_outcome (ct p : string) (outcome : Outcome) : M unit :=
  do cache <- gets persona_performance_cache;
  let result := HistoryRL.update_persona_performance cache ct p outcome in
  do _ <- modify (set_persona_performance_cache (fst result));
  match snd result with
  | Some e => log ("Error updating persona performance: " +:+ e)
  | None => ret tt
  end.

Definition end_call (cid : string) (outcome : Outcome) : M unit :=
  do known <- gets (fun w => active_calls w !! cid);
  match known with
  | None => log ("Call " +:+ cid +:+ " not found")
  | Some cs =>
    let persona := selected_persona cs in
    match customer_context cs with
    | None => raise "'NoneType' object has no attribute 'get'"
    | Some context =>
      let ctype := customer_type context in
      try_except
        (do _ <- save_call cid cs outcome;
         do _ <- (match nonempty ctype, nonempty persona with
                  | Some ct, Some p => report_outcome ct p outcome
                  | _, _ => ret tt
                  end);
         do _ <- modify (set_active_calls (delete cid));
         log ("Ended call " +:+ cid))
        (fun e => log ("Error ending call " +:+ cid +:+ ": " +:+ e))
    end
  end.

End Orchestrator.

(** Every run of [m] relates the world before to the world after by
    [R], whether it returns or raises. *)
Definition preserves {A} (R : World -> World -> Prop) (m : M A) : Prop :=
  forall w o w', m w = (o, w') -> R w w'.

(** The states of the calls other than [cid] are the same. *)
Definition others_untouched (cid : string) (w w' : World) : Prop :=
  forall other, other <> cid -> active_calls w' !! other = active_calls w !! other.

(** [cs'] is [cs] with more entries at the end of its logs. *)
Definition extends (cs cs' : CallState) : Prop :=
  transcripts cs `prefix_of` transcripts cs' /\
  interpretations cs `prefix_of` interpretations cs' /\
  responses cs `prefix_of` responses cs' /\
  call_id cs' = call_id cs /\
  customer_id cs' = customer_id cs /\
  start_time cs' = start_time cs.

(** A call that is active stays active, and its logs only grow. *)
Definition logs_grow (cid : string) (w w' : World) : Prop :=
  forall cs, active_calls w !! cid = Some cs ->
             exists cs', active_calls w' !! cid = Some cs' /\ extends cs cs'.

(** The listener has no speech client: every transcription is the one
    of [transcribe_without_client]. *)
Definition clientless (agents : Agents) : Prop :=
  forall n b,
    transcribe_audio_chunk agents n b =
    Returned (Listener.transcript
                (Listener.transcribe_without_client (decode_utf8 agents) b false)).

(** The tables and the cache of the persona selector are the same. *)
Definition stores_untouched (w w' : World) : Prop :=
  active_calls w' = active_calls w /\
  persona_performance_cache w' = persona_performance_cache w /\
  customers w' = customers w /\
  call_history w' = call_history w.

End Pipeline.

(** ** The scoring arithmetic on doubles *)

Module Binary64.

Set Warnings "-inexact-float".
Local Open Scope float_scope.

Definition alpha : float := 0.1.

(** [alpha * new + (1 - alpha) * old], as in [update_persona_performance]. *)
Definition moving_average (new old : float) : float :=
  alpha * new + (1 - alpha) * old.

(** [satisfaction_avg * 0.6 + resolution_rate * 0.4] *)
Definition success_of (satisfaction_avg resolution_rate : float) : float :=
  satisfaction_avg * 0.6 + resolution_rate * 0.4.

(** An entry of [persona_performance_cache] with the doubles that the
    code stores. *)
Record Performance : Type := mkPerformance {
  success_rate : float;
  satisfaction_avg : float;
  resolution_rate : float;
  call_count : Z
}.

(** The entry created for a key that is not in the cache. *)
Definition default_performance : Performance :=
  {| success_rate := 0.5; satisfaction_avg := 0.5; resolution_rate := 0.5;
     call_count := 0 |}.

(** The statements of the [try] body of [update_persona_performance]
    that work on the entry, in source order, with the arithmetic of the
    code: every operation rounds to the nearest double. *)
Definition update_entry (perf : Performance)
    (satisfaction : jfield float) (resolved : jfield bool) : outcome_of Performance :=
  let call_count0 := call_count perf in
  match satisfaction with
  | JNull => Raised "unsupported operand type(s) for *: 'float' and 'NoneType'"
  | sat =>
    let satisfaction_avg1 :=
      match sat with
      | JVal s => alpha * s + (1 - alpha) * satisfaction_avg perf
      | _ => satisfaction_avg perf
      end in
    let resolution_rate1 :=
      match resolved with
      | Missing => resolution_rate perf
      | r => alpha * (if truthy r then 1.0 else 0.0) + (1 - alpha) * resolution_rate perf
      end in
    Returned
      {| success_rate := satisfaction_avg1 * 0.6 + resolution_rate1 * 0.4;
         satisfaction_avg := satisfaction_avg1;
         resolution_rate := resolution_rate1;
         call_count := (call_count0 + 1)%Z |}
  end.






(** The composite score of [score_response] with the initial weights. *)
Definition composite (resolution_score sentiment_improvement efficiency_score : float)
    : float :=
  0.4 * resolution_score +
  0.3 * (0.5 + sentiment_improvement) +
  0.2 * (sentiment_improvement + 0.5) +
  0.1 * efficiency_score.

Set Warnings "+inexact-float".

End Binary64.

(** ** Concrete inputs used in the examples *)

Module Scenario.

Local Open Scope Q_scope.

(** A candidate of 50 characters and its plan, with
    expected_resolution_probability 0.8 and
    expected_sentiment_improvement 0.2. *)
Definition candidate : CriticRanker.ResponseOption :=
  {| CriticRanker.id := Some "r1";
     CriticRanker.text := Some "I have issued the refund; it arrives within 3 days";
     CriticRanker.tone := Some "positive" |}.

Definition candidate_plan : CriticRanker.DialoguePlan :=
  {| CriticRanker.response_option := Some candidate;
     CriticRanker.predicted_reactions := Some [];
     CriticRanker.expected_resolution_probability := Some 0.8;
     CriticRanker.expected_sentiment_improvement := Some 0.2 |}.

(** A second candidate, more likely to resolve the issue. *)
Definition better_plan : CriticRanker.DialoguePlan :=
  {| CriticRanker.response_option :=
       Some {| CriticRanker.id := Some "r2";
               CriticRanker.text := Some "Your refund is on its way.";
               CriticRanker.tone := Some "positive and warm, positive" |};
     CriticRanker.predicted_reactions :=
       Some [ {| CriticRanker.probability := Some 0.7;
                 CriticRanker.resolution_likelihood := Some 0.9 |} ];
     CriticRanker.expected_resolution_probability := Some 0.9;
     CriticRanker.expected_sentiment_improvement := Some 0.2 |}.

Definition some_profile : CriticRanker.CustomerContext :=
  {| CriticRanker.customer_type := Some "new";
     CriticRanker.satisfaction_avg := Some 0.0;
     CriticRanker.resolution_rate := Some 0.0;
     CriticRanker.intent := None |}.

Definition neutral : Sentiment :=
  {| polarity := Some 0.0; emotion := Some "neutral"; confidence := Some 0.5 |}.

(** Agents that are all out of service, with clocks that follow the
    call counter. *)
Definition failing_agents : Pipeline.Agents :=
  {| Pipeline.decode_utf8 := fun _ => None;
     Pipeline.transcribe_audio_chunk := fun _ _ => Raised "listener unavailable";
     Pipeline.interpret := fun _ _ _ => Raised "interpreter unavailable";
     Pipeline.get_customer_context := fun _ _ _ _ => Raised "history unavailable";
     Pipeline.plan_dialogue := fun _ _ _ _ _ _ => Raised "planner unavailable";
     Pipeline.rank_responses := fun _ _ _ _ => Raised "ranker unavailable";
     Pipeline.utcnow := fun n => Z.of_nat n;
     Pipeline.loop_time := fun n => inject_Z (Z.of_nat n);
     Pipeline.uuid4_hex8 := fun _ => "0a1b2c3d" |}.

(** A decoder for the examples: right on ASCII, and refusing every
    other byte. *)
Definition ascii_decode (b : list Z) : option string :=
  if forallb (fun z => (0 <=? z)%Z && (z <? 128)%Z) b
  then Some (String.string_of_list_ascii (map (fun z => Ascii.ascii_of_nat (Z.to_nat z)) b))
  else None.

(** Agents in working order: a fixed interpretation, the persona chosen
    from an empty performance table, two candidates, and the ranker of
    [CriticRanker] with a value network that answers 0. *)
Definition working_agents : Pipeline.Agents :=
  {| Pipeline.decode_utf8 := ascii_decode;
     Pipeline.transcribe_audio_chunk := fun _ _ => Returned "";
     Pipeline.interpret := fun _ _ _ =>
       Returned {| Pipeline.i_intent :=
                     Some {| Pipeline.intent_name := Some "billing_inquiry";
                             Pipeline.intent_confidence := Some 0.9 |};
                   Pipeline.i_sentiment := Some neutral;
                   Pipeline.i_entities := Some [] |};
     Pipeline.get_customer_context := fun _ _ intent sentiment =>
       Returned {| Pipeline.customer_profile := Some some_profile;
                   Pipeline.customer_type := Some "new";
                   Pipeline.ctx_selected_persona :=
                     Some (HistoryRL.select_optimal_persona ∅ "new" intent
                             (default neutral sentiment)) |};
     Pipeline.plan_dialogue := fun _ _ _ _ _ _ =>
       Returned {| Pipeline.options := Some [candidate_plan; better_plan] |};
     Pipeline.rank_responses := fun _ plans profile sentiment =>
       match sentiment with
       | Some s =>
         Returned (CriticRanker.rank_responses (fun _ => 0%Z) (Some (fun _ => 0))
                     CriticRanker.initial_weights plans profile s)
       | None => Raised "'NoneType' object has no attribute 'get'"
       end;
     Pipeline.utcnow := fun n => Z.of_nat n;
     Pipeline.loop_time := fun n => inject_Z (Z.of_nat n) / 1000;
     Pipeline.uuid4_hex8 := fun _ => "0a1b2c3d" |}.

(** The pipeline before any call. *)
Definition idle_world : Pipeline.World :=
  {| Pipeline.active_calls := ∅;
     Pipeline.persona_performance_cache := ∅;
     Pipeline.customers := ∅;
     Pipeline.call_history := ∅;
     Pipeline.db_available := true;
     Pipeline.invoked := [];
     Pipeline.logs := [];
     Pipeline.tick := 0 |}.

(** The bytes of "Hi!". *)
Definition hi_bytes : list Z := [72; 105; 33]%Z.

(** A call of customer "alice" with one recorded customer turn, the
    persona and the context resolved. *)
Definition call_c1 : Pipeline.CallState :=
  {| Pipeline.call_id := "c1";
     Pipeline.customer_id := "alice";
     Pipeline.start_time := 100;
     Pipeline.transcripts :=
       [ {| Pipeline.te_text := "My bill is wrong";
            Pipeline.te_timestamp := 101;
            Pipeline.te_speaker := "customer" |} ];
     Pipeline.interpretations := [];
     Pipeline.responses := [];
     Pipeline.current_intent := Some "billing_inquiry";
     Pipeline.current_sentiment := Some neutral;
     Pipeline.selected_persona := Some "friendly_casual";
     Pipeline.customer_context :=
       Some {| Pipeline.customer_profile := Some some_profile;
               Pipeline.customer_type := Some "regular";
               Pipeline.ctx_selected_persona := Some "friendly_casual" |} |}.

(** "alice" has one earlier call, which was resolved. *)
Definition alice : Pipeline.Customer :=
  {| Pipeline.total_calls := 1;
     Pipeline.satisfaction_avg := 0.8;
     Pipeline.resolution_rate := 1.0 |}.

Definition world_c1 : Pipeline.World :=
  {| Pipeline.active_calls := {[ "c1" := call_c1 ]};
     Pipeline.persona_performance_cache := ∅;
     Pipeline.customers := {[ "alice" := alice ]};
     Pipeline.call_history := ∅;
     Pipeline.db_available := true;
     Pipeline.invoked := [];
     Pipeline.logs := [];
     Pipeline.tick := 200 |}.

(** The working agents with a listener that has no speech client. *)
Definition offline_agents : Pipeline.Agents :=
  {| Pipeline.decode_utf8 := ascii_decode;
     Pipeline.transcribe_audio_chunk := fun _ b =>
       Returned (Listener.transcript (Listener.transcribe_without_client ascii_decode b false));
     Pipeline.interpret := Pipeline.interpret working_agents;
     Pipeline.get_customer_context := Pipeline.get_customer_context working_agents;
     Pipeline.plan_dialogue := Pipeline.plan_dialogue working_agents;
     Pipeline.rank_responses := Pipeline.rank_responses working_agents;
     Pipeline.utcnow := Pipeline.utcnow working_agents;
     Pipeline.loop_time := Pipeline.loop_time working_agents;
     Pipeline.uuid4_hex8 := Pipeline.uuid4_hex8 working_agents |}.

End Scenario.

(** * Properties *)

(** ** Persona selection and the performance table *)

Section Comparisons.

Local Open Scope Q_scope.

Lemma Qltb_true (x y : Q) : Qltb x y = true <-> x < y.
Proof.
  unfold Qltb. rewrite negb_true_iff. split.
  - intros H. apply Qnot_le_lt. intros Hle.
    apply Qle_bool_iff in Hle. congruence.
  - intros H. destruct (Qle_bool y x) eqn:E; [|reflexivity].
    apply Qle_bool_iff in E. apply Qlt_not_le in H. contradiction.
Qed.

Lemma Qltb_false (x y : Q) : Qltb x y = false <-> y <= x.
Proof.
  unfold Qltb. rewrite negb_false_iff. apply Qle_bool_iff.
Qed.

End Comparisons.

Module PersonaSelector.

Import HistoryRL.
Local Open Scope Q_scope.

(** The score of a persona without an entry. *)
Lemma default_score : persona_score default_performance == 0.5.
Proof. reflexivity. Qed.

Lemma scan_step_absent (cache : gmap string Performance) ct best persona :
  cache !! performance_key ct persona = None ->
  scan_step cache ct best persona =
  if Qltb (snd best) (persona_score default_performance)
  then (Some persona, persona_score default_performance) else best.
Proof. intros H. unfold scan_step. rewrite H. reflexivity. Qed.

(** C10: with no entry for any persona of the customer type, every
    persona scores the default 0.5, the first persona of the list is kept
    as the best one, the fallback condition is false, and the selector
    returns "empathetic_authoritative" whatever the intent and the
    sentiment are. *)
Theorem select_without_entries (cache : gmap string Performance)
    (ct : string) (intent : option string) (sentiment : Sentiment) :
  (forall persona, cache !! performance_key ct persona = None) ->
  (forall persona, persona_score (entry_at cache ct persona) == 0.5) /\
  fst (scan_personas cache ct) = Some "empathetic_authoritative" /\
  snd (scan_personas cache ct) == 0.5 /\
  needs_fallback (scan_personas cache ct) = false /\
  select_optimal_persona cache ct intent sentiment = "empathetic_authoritative".
Proof.
  intros Hnone.
  assert (Hscan : scan_personas cache ct =
                  (Some "empathetic_authoritative", persona_score default_performance)).
  { unfold scan_personas, PERSONA_TYPES. cbn [fold_left].
    rewrite !scan_step_absent by apply Hnone. reflexivity. }
  split; [|split; [|split; [|split]]].
  - intros persona. unfold entry_at. rewrite Hnone. reflexivity.
  - rewrite Hscan. reflexivity.
  - rewrite Hscan. reflexivity.
  - rewrite Hscan. reflexivity.
  - unfold select_optimal_persona. rewrite Hscan. reflexivity.
Qed.

Lemma select_without_entries_witness :
  (forall persona, (∅ : gmap string Performance) !! performance_key "new" persona = None) /\
  select_optimal_persona ∅ "new" (Some "billing_inquiry")
    {| polarity := Some (-0.5); emotion := Some "frustrated"; confidence := None |}
  = "empathetic_authoritative".
Proof.
  split.
  - intros persona. apply lookup_empty.
  - apply (select_without_entries ∅ "new" (Some "billing_inquiry")
             {| polarity := Some (-0.5); emotion := Some "frustrated"; confidence := None |}).
    intros persona. apply lookup_empty.
Defined.

(** *** The update of an entry *)

Lemma ensure_entry_lookup (cache : gmap string Performance) key :
  ensure_entry cache key !! key =
  Some (default default_performance (cache !! key)).
Proof.
  unfold ensure_entry. destruct (cache !! key) eqn:E; cbn.
  - exact E.
  - apply lookup_insert_eq.
Qed.

(** The update is carried out exactly when the satisfaction is not
    [None]. *)
Lemma update_entry_returns perf outcome :
  satisfaction outcome <> JNull ->
  exists perf', update_entry perf outcome = Returned perf'.
Proof.
  intros H. unfold update_entry.
  destruct (satisfaction outcome); [eexists; reflexivity|congruence|eexists; reflexivity].
Qed.

Lemma update_entry_consistent perf outcome perf' :
  update_entry perf outcome = Returned perf' -> consistent perf'.
Proof.
  unfold update_entry, consistent.
  destruct (satisfaction outcome); intros H; inversion H; subst; clear H; cbn; ring.
Qed.

Lemma update_lookup (cache : gmap string Performance) ct pt outcome :
  snd (update_persona_performance cache ct pt outcome) = None ->
  exists perf',
    update_entry (entry_at cache ct pt) outcome = Returned perf' /\
    fst (update_persona_performance cache ct pt outcome)
      !! performance_key ct pt = Some perf'.
Proof.
  unfold update_persona_performance, entry_at.
  rewrite ensure_entry_lookup. cbn [default].
  destruct (update_entry _ outcome) as [perf'|msg] eqn:E; cbn; [|discriminate].
  intros _. exists perf'. split; [reflexivity|apply lookup_insert_eq].
Qed.

Lemma update_completes (cache : gmap string Performance) ct pt outcome :
  satisfaction outcome <> JNull <->
  snd (update_persona_performance cache ct pt outcome) = None.
Proof.
  unfold update_persona_performance. split.
  - intros H.
    destruct (update_entry_returns
                (default default_performance
                   (ensure_entry cache (performance_key ct pt) !! performance_key ct pt))
                outcome H) as [perf' ->].
    reflexivity.
  - unfold update_entry. destruct (satisfaction outcome); cbn; congruence.
Qed.

(** C7: after an update of the entry of any key with any outcome, the
    entry satisfies success_rate = 0.6 * satisfaction_avg + 0.4 *
    resolution_rate, whatever the entry was before. *)
Theorem success_rate_recomputed (cache : gmap string Performance)
    (ct pt : string) (outcome : Outcome) :
  snd (update_persona_performance cache ct pt outcome) = None ->
  exists perf',
    fst (update_persona_performance cache ct pt outcome)
      !! performance_key ct pt = Some perf' /\
    success_rate perf' ==
      0.6 * satisfaction_avg perf' + 0.4 * resolution_rate perf'.
Proof.
  intros Hdone.
  destruct (update_lookup cache ct pt outcome Hdone) as (perf' & Hupd & Hlook).
  exists perf'. split; [exact Hlook|].
  exact (update_entry_consistent _ _ _ Hupd).
Qed.

Lemma success_rate_recomputed_witness :
  exists perf',
    fst (update_persona_performance
           {[ performance_key "new" "friendly_casual" :=
                {| success_rate := 0.9; satisfaction_avg := 0.2;
                   resolution_rate := 0.1; call_count := 7 |} ]}
           "new" "friendly_casual"
           {| satisfaction := JVal 0.8; resolved := JVal false |})
      !! performance_key "new" "friendly_casual" = Some perf' /\
    success_rate perf' ==
      0.6 * satisfaction_avg perf' + 0.4 * resolution_rate perf'.
Proof.
  apply (success_rate_recomputed
           {[ performance_key "new" "friendly_casual" :=
                {| success_rate := 0.9; satisfaction_avg := 0.2;
                   resolution_rate := 0.1; call_count := 7 |} ]}
           "new" "friendly_casual"
           {| satisfaction := JVal 0.8; resolved := JVal false |}).
  reflexivity.
Defined.

(** C9: the outcome with satisfaction 0.9 and resolved true, applied to
    the default entry (0.5, 0.5, 0.5, 0), gives satisfaction_avg 0.54,
    resolution_rate 0.55, success_rate 0.544 and call_count 1. *)
Theorem update_default_entry (cache : gmap string Performance) (ct pt : string) :
  entry_at cache ct pt = default_performance ->
  alpha == 0.1 /\
  exists perf',
    fst (update_persona_performance cache ct pt
           {| satisfaction := JVal 0.9; resolved := JVal true |})
      !! performance_key ct pt = Some perf' /\
    satisfaction_avg perf' == 0.54 /\
    resolution_rate perf' == 0.55 /\
    success_rate perf' == 0.544 /\
    call_count perf' = 1%Z.
Proof.
  intros Hdefault. split; [reflexivity|].
  set (outcome := {| satisfaction := JVal 0.9; resolved := JVal true |}).
  assert (Hdone : snd (update_persona_performance cache ct pt outcome) = None).
  { apply update_completes. discriminate. }
  destruct (update_lookup cache ct pt outcome Hdone) as (perf' & Hupd & Hlook).
  exists perf'. split; [exact Hlook|].
  rewrite Hdefault in Hupd. inversion Hupd; subst perf'; clear Hupd.
  cbn. repeat split; reflexivity.
Qed.

Lemma update_default_entry_witness :
  exists perf',
    fst (update_persona_performance ∅ "regular" "professional_formal"
           {| satisfaction := JVal 0.9; resolved := JVal true |})
      !! performance_key "regular" "professional_formal" = Some perf' /\
    satisfaction_avg perf' == 0.54 /\
    resolution_rate perf' == 0.55 /\
    success_rate perf' == 0.544 /\
    call_count perf' = 1%Z.
Proof.
  apply (update_default_entry ∅ "regular" "professional_formal").
  reflexivity.
Defined.

(** *** Repeated best outcomes *)

Lemma entry_after_update (cache : gmap string Performance) ct pt outcome perf' :
  update_entry (entry_at cache ct pt) outcome = Returned perf' ->
  entry_at (fst (update_persona_performance cache ct pt outcome)) ct pt = perf'.
Proof.
  intros Hupd. unfold update_persona_performance. cbv zeta.
  rewrite ensure_entry_lookup.
  change (default default_performance
            (Some (default default_performance (cache !! performance_key ct pt))))
    with (entry_at cache ct pt).
  rewrite Hupd. cbn [fst].
  unfold entry_at. rewrite lookup_insert_eq. reflexivity.
Qed.

End PersonaSelector.

(** ** Response scoring *)

Module ResponseRanker.

Import CriticRanker Scenario.
Local Open Scope list_scope.
Local Open Scope Q_scope.

Lemma candidate_length : String.length (default "" (text candidate)) = 50%nat.
Proof. reflexivity. Qed.

Example count_positive : str_count "positive and warm, positive" "positive" = 2%nat.
Proof. reflexivity. Qed.

Example count_without_overlap : str_count "aaaa" "aa" = 2%nat.
Proof. reflexivity. Qed.

(** The ranking follows the score, best first, and starts at 1. *)
Example ranking_by_score :
  map (fun r => (response_id (rr_result r), rr_ranking r))
      (rank_responses (fun _ => 0%Z) (Some (fun _ => 0)) initial_weights
         [candidate_plan; better_plan] some_profile neutral)
  = [("r2", 1%Z); ("r1", 2%Z)].
Proof. reflexivity. Qed.

(** Without a value network every candidate scores 0.5 and the input
    order is kept. *)
Example ranking_without_network :
  map (fun r => (response_id (rr_result r), rr_ranking r))
      (rank_responses (fun _ => 0%Z) None initial_weights
         [candidate_plan; better_plan] some_profile neutral)
  = [("r1", 1%Z); ("r2", 2%Z)].
Proof. reflexivity. Qed.

Lemma efficiency_at_50 (opt : ResponseOption) :
  String.length (default "" (text opt)) = 50%nat -> efficiency_of opt == 1.0.
Proof.
  intros H. unfold efficiency_of, Qlen. rewrite H. reflexivity.
Qed.

Lemma composite_at_50 (opt : ResponseOption) (plan : DialoguePlan) :
  String.length (default "" (text opt)) = 50%nat ->
  expected_resolution_probability plan = Some 0.8 ->
  expected_sentiment_improvement plan = Some 0.2 ->
  composite_of initial_weights opt plan == 0.77.
Proof.
  intros Hlen Hres Himp. unfold composite_of.
  rewrite (efficiency_at_50 opt Hlen), Hres, Himp. reflexivity.
Qed.

(** With a value network the score is always the blend of the composite
    score and the estimate. *)
Lemma score_is_blend (py_hash : string -> Z) (forward : list Q -> Q) (weights : Weights)
    (opt : ResponseOption) (plan : DialoguePlan)
    (ctx : CustomerContext) (sentiment : Sentiment) :
  score (score_response py_hash (Some forward) weights opt plan ctx sentiment) ==
  0.6 * composite_of weights opt plan
  + 0.4 * (forward (_encode_state py_hash opt plan ctx sentiment) + 0.5).
Proof. reflexivity. Qed.

(** C1: the scenario of the claim on an agent without a value network,
    the state that [initialize] announces as "using simplified scoring".
    The call of the network raises, and the [except] branch answers with
    the score 0.5, an error, and neither a composite score nor a
    breakdown, where the claim has the composite score as the final
    score.  The composite score of the candidate is 0.77 by the formula of
    the claim and of the code; the 0.75 of the claim is a slip of its
    arithmetic. *)
Lemma no_value_network_scores_half :
  let r :=
    score_response (fun _ => 0%Z) None initial_weights
      candidate candidate_plan some_profile neutral in
  String.length (default "" (text candidate)) = 50%nat /\
  score r == 0.5 /\
  composite_score r = None /\
  breakdown r = None /\
  is_Some (error r) /\
  ~ score r == 0.75 /\
  composite_of initial_weights candidate candidate_plan == 0.77 /\
  ~ composite_of initial_weights candidate candidate_plan == 0.75.
Proof.
  cbv zeta. repeat apply conj; try reflexivity.
  - eexists. reflexivity.
  - vm_compute. discriminate.
  - vm_compute. discriminate.
Qed.

(** The other path: when the value network gives an estimate, the
    score of a candidate is 0.6 * composite + 0.4 * (estimate + 0.5); for
    a text of length 50, expected_resolution_probability 0.8 and
    expected_sentiment_improvement 0.2 the efficiency score is 1.0 and
    the composite score is 0.77. *)
Theorem score_with_value_estimate (py_hash : string -> Z) (forward : list Q -> Q)
    (opt : ResponseOption) (plan : DialoguePlan)
    (ctx : CustomerContext) (sentiment : Sentiment) :
  String.length (default "" (text opt)) = 50%nat ->
  expected_resolution_probability plan = Some 0.8 ->
  expected_sentiment_improvement plan = Some 0.2 ->
  let r := score_response py_hash (Some forward) initial_weights opt plan ctx sentiment in
  let v := forward (_encode_state py_hash opt plan ctx sentiment) in
  value_estimate r = Some v /\
  composite_score r = Some (composite_of initial_weights opt plan) /\
  composite_of initial_weights opt plan == 0.77 /\
  b_efficiency <$> breakdown r = Some (efficiency_of opt) /\
  efficiency_of opt == 1.0 /\
  score r == 0.6 * composite_of initial_weights opt plan + 0.4 * (v + 0.5) /\
  score r == 0.6 * 0.77 + 0.4 * (v + 0.5) /\
  error r = None.
Proof.
  intros Hlen Hres Himp r v.
  pose proof (composite_at_50 opt plan Hlen Hres Himp) as Hc.
  pose proof (efficiency_at_50 opt Hlen) as He.
  unfold r, score_response, call_value_network. cbn.
  fold v.
  repeat apply conj; try reflexivity; try assumption.
  rewrite Hc. reflexivity.
Qed.

Lemma score_with_value_estimate_witness :
  let r :=
    score_response (fun _ => 0%Z) (Some (fun _ => 0.25)) initial_weights
      candidate candidate_plan some_profile neutral in
  value_estimate r = Some 0.25 /\
  composite_of initial_weights candidate candidate_plan == 0.77 /\
  efficiency_of candidate == 1.0 /\
  score r == 0.6 * 0.77 + 0.4 * (0.25 + 0.5).
Proof.
  destruct (score_with_value_estimate (fun _ => 0%Z) (fun _ => 0.25)
              candidate candidate_plan some_profile neutral
              eq_refl eq_refl eq_refl)
    as (Hv & _ & Hc & _ & He & _ & Hs & _).
  repeat apply conj; assumption.
Defined.

End ResponseRanker.

(** ** Turn detection *)

Module TurnDetector.

Import Listener.
Local Open Scope list_scope.
Local Open Scope Q_scope.



(** Two samples of value 256 and -256: energy 256, below the threshold;
    the first silent chunk starts the timer. *)
Example quiet_chunk :
  detect_turn_boundary (init VAD_SILENCE_THRESHOLD_MS) [0; 1; 0; 255]%Z 2.5 =
  Returned (false, {| silence_threshold_ms := 650; last_speech_time := Some 2.5 |}).
Proof. reflexivity. Qed.

Example odd_chunk_raises :
  detect_turn_boundary (init VAD_SILENCE_THRESHOLD_MS) [0; 1; 0]%Z 2.5 =
  Raised "buffer size must be a multiple of element size".
Proof. reflexivity. Qed.

Example short_chunk_ignored :
  detect_turn_boundary (init VAD_SILENCE_THRESHOLD_MS) [7]%Z 2.5 =
  Returned (false, init VAD_SILENCE_THRESHOLD_MS).
Proof. reflexivity. Qed.





















End TurnDetector.

(** ** The orchestrator *)

Module Orchestrator.

Import Pipeline Scenario.
Local Open Scope list_scope.
Local Open Scope Q_scope.

Lemma bind_returned {A B} (m : M A) (k : A -> M B) (w w' : World) (b : B) :
  bind m k w = (Returned b, w') ->
  exists a w1, m w = (Returned a, w1) /\ k a w1 = (Returned b, w').
Proof.
  unfold bind. destruct (m w) as [[a|e] w1]; intros H; [eauto|discriminate].
Qed.

Ltac bind_inv H :=
  let a := fresh "a" in
  let w := fresh "w" in
  let E := fresh "E" in
  apply bind_returned in H as (a & w & E & H).

Lemma listener_only_refl (w : World) : listener_only w w.
Proof. exists []. split; [symmetry; apply app_nil_r|constructor]. Qed.

Lemma listener_only_trans (w1 w2 w3 : World) :
  listener_only w1 w2 -> listener_only w2 w3 -> listener_only w1 w3.
Proof.
  intros (l1 & H1 & F1) (l2 & H2 & F2). exists (l1 ++ l2). split.
  - rewrite H2, H1. symmetry. apply app_assoc.
  - apply Forall_app. split; assumption.
Qed.

Lemma listen_spec (agents : Agents) (b : list Z) (w : World) :
  active_calls (snd (listen agents b w)) = active_calls w /\
  listener_only w (snd (listen agents b w)).
Proof.
  unfold listen, await. cbn. split; [reflexivity|].
  exists [SListener]. split; [reflexivity|repeat constructor].
Qed.

(** Obtaining the transcript touches no call state and calls no agent
    but the listener. *)
Lemma obtain_transcript_spec (agents : Agents) (audio : AudioData) (w : World) :
  active_calls (snd (obtain_transcript agents audio w)) = active_calls w /\
  listener_only w (snd (obtain_transcript agents audio w)).
Proof.
  unfold obtain_transcript. destruct audio as [b|s].
  - unfold try_except.
    destruct (decode_utf8 agents b) as [t|].
    + destruct (negb (String.eqb t "") && negb (String.prefix "[Mock:" t)).
      * cbn. split; [reflexivity|apply listener_only_refl].
      * destruct (listen agents b w) as [[t'|e] w1] eqn:E.
        -- pose proof (listen_spec agents b w) as H. rewrite E in H. exact H.
        -- pose proof (listen_spec agents b w) as [H1 H2]. rewrite E in H1, H2.
           cbn [snd] in H1, H2.
           pose proof (listen_spec agents b w1) as [H3 H4].
           split; [congruence|]. eapply listener_only_trans; eassumption.
    + cbn [raise]. apply listen_spec.
  - cbn. split; [reflexivity|apply listener_only_refl].
Qed.

(** A customer turn with text that is analysed to the end is reported
    as complete. *)
Lemma analyse_turn_returned (agents : Agents) (cid transcript speaker : string)
    (started : Q) (w w' : World) (r : TurnResult) :
  analyse_turn agents cid transcript speaker started w = (Returned r, w') ->
  r_status r = "complete" /\ r_transcript r = Some transcript.
Proof.
  unfold analyse_turn. intros H. cbv zeta in H.
  repeat bind_inv H.
  unfold ret in H. inversion H; subst r. split; reflexivity.
Qed.

Lemma turn_body_returned (agents : Agents) (cid : string) (audio : AudioData)
    (speaker : string) (started : Q) (w w' : World) (r : TurnResult) :
  turn_body agents cid audio speaker started w = (Returned r, w') ->
  (exists transcript,
     (transcript = "" \/ speaker <> "customer") /\
     r = processing_result cid transcript /\
     obtain_transcript agents audio w = (Returned transcript, w')) \/
  (speaker = "customer" /\ r_status r = "complete" /\
   exists transcript, transcript <> "" /\ r_transcript r = Some transcript).
Proof.
  unfold turn_body. intros H. bind_inv H. rename a into transcript.
  destruct (String.eqb_spec transcript "") as [Hempty|Hfull]; cbn [orb] in H.
  - left. exists transcript. unfold ret in H. inversion H; subst.
    split; [left; reflexivity|]. split; [reflexivity|assumption].
  - destruct (String.eqb_spec speaker "customer") as [Hcust|Hother]; cbn [negb] in H.
    + right. apply analyse_turn_returned in H as [Hs Ht].
      split; [exact Hcust|]. split; [exact Hs|]. exists transcript. split; assumption.
    + left. exists transcript. unfold ret in H. inversion H; subst.
      split; [right; exact Hother|]. split; [reflexivity|assumption].
Qed.

(** The prelude of [process_audio_chunk]: afterwards the call exists; an
    existing call is left as it is, and no agent has been called. *)
Lemma ensure_call_spec (agents : Agents) (cid : string) (w : World) :
  exists w1,
    ensure_call agents cid w = (Returned tt, w1) /\
    invoked w1 = invoked w /\
    match active_calls w !! cid with
    | Some cs => w1 = w
    | None =>
      active_calls w1 =
      <[cid := fresh_call_state cid ("customer_" +:+ uuid4_hex8 agents (tick w))
                 (utcnow agents (S (tick w)))]> (active_calls w)
    end.
Proof.
  unfold ensure_call, bind, gets.
  destruct (active_calls w !! cid) as [cs|] eqn:E.
  - rewrite bool_decide_eq_true_2 by eauto. eexists. repeat split.
  - rewrite bool_decide_eq_false_2 by (intros [? ?]; congruence).
    cbn. eexists. split; [reflexivity|]. cbn.
    split; [rewrite !app_nil_r; reflexivity|reflexivity].
Qed.

Lemma ensure_call_present (agents : Agents) (cid : string) (w w1 : World) :
  ensure_call agents cid w = (Returned tt, w1) ->
  is_Some (active_calls w1 !! cid).
Proof.
  intros H. destruct (ensure_call_spec agents cid w) as (w1' & H1 & _ & H2).
  rewrite H in H1. inversion H1; subst w1'.
  destruct (active_calls w !! cid) as [cs|] eqn:E.
  - subst w1. eauto.
  - rewrite H2, lookup_insert_eq. eauto.
Qed.

(** C6: whatever the call id, the audio data, the speaker, the state of
    the pipeline and the behaviour of the agents (each may raise at any
    call), [process_audio_chunk] returns a result and raises nothing; the
    status of the result is "processing", "complete" or "error", and an
    "error" result carries the message. *)
Theorem process_audio_chunk_returns (agents : Agents) (cid : string)
    (audio : AudioData) (speaker : string) (w : World) :
  exists r w',
    process_audio_chunk agents cid audio speaker w = (Returned r, w') /\
    r_call_id r = cid /\
    (r_status r = "processing" \/ r_status r = "complete" \/
     (r_status r = "error" /\ is_Some (r_error r))).
Proof.
  unfold process_audio_chunk.
  destruct (ensure_call_spec agents cid w) as (w1 & H1 & _ & _).
  pose proof (ensure_call_present agents cid w w1 H1) as [cs Hcs].
  unfold bind at 1. rewrite H1.
  unfold bind at 1. unfold the_call at 1. rewrite Hcs.
  unfold bind at 1. unfold ask at 1.
  set (w2 := advance None w1). set (started := loop_time agents (tick w1)).
  unfold try_except.
  destruct (turn_body agents cid audio speaker started w2) as [[r|e] w3] eqn:E.
  - exists r, w3. split; [reflexivity|].
    pose proof E as E'.
    apply turn_body_returned in E as [(t & _ & -> & _)|(_ & Hs & _)].
    + split; [reflexivity|]. left. reflexivity.
    + split; [|right; left; exact Hs].
      unfold turn_body in E'. bind_inv E'.
      destruct (String.eqb a "" || negb (String.eqb speaker "customer")).
      * unfold ret in E'. inversion E'. reflexivity.
      * unfold analyse_turn in E'. cbv zeta in E'. repeat bind_inv E'.
        unfold ret in E'. inversion E'. reflexivity.
  - eexists. eexists. split; [reflexivity|].
    split; [reflexivity|]. right. right. split; [reflexivity|]. cbn. eauto.
Qed.

(** A customer turn on an unknown call id with working agents: the call
    is created, the four stages run in order, and the turn is recorded. *)
Example complete_turn :
  let run := process_audio_chunk working_agents "c2" (Bytes hi_bytes) "customer" idle_world in
  (r_status <$> (match fst run with Returned r => Some r | Raised _ => None end))
    = Some "complete" /\
  (r_selected_persona <$> (match fst run with Returned r => Some r | Raised _ => None end))
    = Some (Some "empathetic_authoritative") /\
  invoked (snd run) = [SInterpreter; SHistoryRL; SPlanner; SCriticRanker] /\
  (map te_text <$> (transcripts <$> active_calls (snd run) !! "c2")) = Some ["Hi!"] /\
  (customer_id <$> active_calls (snd run) !! "c2") = Some "customer_0a1b2c3d".
Proof. cbv zeta. repeat apply conj; reflexivity. Qed.

(** The same turn with every agent out of service: the interpreter
    raises, the result is an error, and the transcript entry made before
    the failure stays. *)
Example failed_turn :
  let run := process_audio_chunk failing_agents "c1" (Text "Hi!") "customer" world_c1 in
  fst run = Returned (error_result "c1" "interpreter unavailable") /\
  invoked (snd run) = [SInterpreter] /\
  (length <$> (transcripts <$> active_calls (snd run) !! "c1")) = Some 2%nat.
Proof. cbv zeta. repeat apply conj; reflexivity. Qed.

(** C3 as stated fails in its last part: the test on the transcript and
    the speaker returns before the transcript is appended, so a turn of
    the agent leaves the transcripts of the call as they were. *)
Lemma agent_turn_not_recorded :
  let run :=
    process_audio_chunk failing_agents "c1" (Text "Let me check that for you")
      "agent" world_c1 in
  fst run = Returned (processing_result "c1" "Let me check that for you") /\
  active_calls (snd run) !! "c1" = Some call_c1 /\
  ~ exists entry cs,
      active_calls (snd run) !! "c1" = Some cs /\
      transcripts cs = transcripts call_c1 ++ [entry].
Proof.
  cbv zeta.
  assert (Hcall : active_calls
                    (snd (process_audio_chunk failing_agents "c1"
                            (Text "Let me check that for you") "agent" world_c1))
                  !! "c1" = Some call_c1) by reflexivity.
  repeat apply conj.
  - reflexivity.
  - exact Hcall.
  - intros (entry & cs & Hcs & Happ). rewrite Hcall in Hcs.
    inversion Hcs; subst cs. apply (f_equal length) in Happ.
    rewrite length_app in Happ. cbn in Happ. lia.
Qed.

(** C3 (as amended): whenever the transcript is obtained without error
    and the speaker is not "customer" or the transcript is empty,
    [process_audio_chunk] returns the result with status "processing" and
    that transcript; no agent other than the listener is called, and the
    state of the call is left as it is: the turn is not appended to the
    transcripts.  (A call id that was unknown gets its fresh state, with
    empty logs.)  The transcript is obtained after the call has been
    looked up and the clock has been read. *)
Theorem unanalysed_turn (agents : Agents) (cid : string) (audio : AudioData)
    (speaker : string) (w w' : World) (transcript : string) :
  obtain_transcript agents audio (advance None (snd (ensure_call agents cid w)))
  = (Returned transcript, w') ->
  speaker <> "customer" \/ transcript = "" ->
  process_audio_chunk agents cid audio speaker w
  = (Returned (processing_result cid transcript), w') /\
  r_status (processing_result cid transcript) = "processing" /\
  r_transcript (processing_result cid transcript) = Some transcript /\
  listener_only w w' /\
  (forall cs, active_calls w !! cid = Some cs -> active_calls w' = active_calls w) /\
  (active_calls w !! cid = None ->
   exists cs, active_calls w' !! cid = Some cs /\ transcripts cs = [] /\
              interpretations cs = [] /\ responses cs = []).
Proof.
  intros Hobt Hcase.
  destruct (ensure_call_spec agents cid w) as (w1 & H1 & Hinv1 & Hact1).
  rewrite H1 in Hobt. cbn [snd] in Hobt.
  pose proof (ensure_call_present agents cid w w1 H1) as [cs1 Hcs1].
  assert (Hguard : String.eqb transcript "" || negb (String.eqb speaker "customer") = true).
  { destruct Hcase as [Hsp|Hempty].
    - apply orb_true_iff. right. apply negb_true_iff.
      destruct (String.eqb_spec speaker "customer"); [contradiction|reflexivity].
    - subst transcript. reflexivity. }
  pose proof (obtain_transcript_spec agents audio (advance None w1)) as [Ha Hl].
  rewrite Hobt in Ha, Hl. cbn [snd] in Ha, Hl.
  split.
  - unfold process_audio_chunk.
    unfold bind at 1. rewrite H1.
    unfold bind at 1. unfold the_call at 1. rewrite Hcs1.
    unfold bind at 1. unfold ask at 1.
    unfold try_except, turn_body. unfold bind at 1. rewrite Hobt, Hguard.
    reflexivity.
  - split; [reflexivity|]. split; [reflexivity|]. split; [|split].
    + destruct Hl as (l & Hl & Fl). exists l. split; [|exact Fl].
      rewrite Hl. cbn. rewrite app_nil_r, Hinv1. reflexivity.
    + intros cs Hcs. rewrite Hcs in Hact1. subst w1. exact Ha.
    + intros Hnone. rewrite Hnone in Hact1.
      eexists. rewrite Ha. cbn [advance active_calls]. rewrite Hact1.
      rewrite lookup_insert_eq. repeat split.
Qed.

Lemma unanalysed_turn_witness :
  let run :=
    process_audio_chunk failing_agents "c1" (Text "Let me check that for you")
      "agent" world_c1 in
  fst run = Returned (processing_result "c1" "Let me check that for you") /\
  listener_only world_c1 (snd run) /\
  active_calls (snd run) = active_calls world_c1.
Proof.
  destruct (unanalysed_turn failing_agents "c1" (Text "Let me check that for you")
              "agent" world_c1 (advance None world_c1) "Let me check that for you")
    as (H1 & _ & _ & H2 & H3 & _).
  - reflexivity.
  - left. discriminate.
  - cbv zeta. rewrite H1. cbn [fst snd].
    split; [reflexivity|]. split; [exact H2|].
    apply (H3 call_c1). reflexivity.
Defined.

(** C5 as stated fails: [start_call] stores a fresh state under the call
    id without looking at what is there, so a second [start_call] for an
    active call discards its logs and its customer id. *)
Lemma start_call_replaces_active_call :
  let run := start_call failing_agents "c1" "bob" world_c1 in
  active_calls world_c1 !! "c1" = Some call_c1 /\
  fst run = Returned tt /\
  active_calls (snd run) !! "c1" = Some (fresh_call_state "c1" "bob" 200) /\
  active_calls (snd run) !! "c1" <> Some call_c1 /\
  (transcripts <$> active_calls (snd run) !! "c1") = Some [] /\
  (customer_id <$> active_calls (snd run) !! "c1") = Some "bob".
Proof.
  cbv zeta. repeat apply conj; try reflexivity.
  assert (H : active_calls (snd (start_call failing_agents "c1" "bob" world_c1))
              !! "c1" = Some (fresh_call_state "c1" "bob" 200)) by reflexivity.
  rewrite H. intros Heq. inversion Heq.
Qed.

(** C5 (as amended): [start_call] always succeeds and stores a fresh
    state (empty transcripts, interpretations and responses, the given
    customer id, the current time) under the call id, replacing the state
    of an active call with that id; the other calls are untouched.  Only
    the creation of a missing call in [process_audio_chunk] is behind a
    test, and leaves an active call as it is. *)
Theorem start_call_stores_fresh_state (agents : Agents) (cid customer : string)
    (w : World) :
  let fresh := fresh_call_state cid customer (utcnow agents (tick w)) in
  let w' := snd (start_call agents cid customer w) in
  fst (start_call agents cid customer w) = Returned tt /\
  active_calls w' !! cid = Some fresh /\
  transcripts fresh = [] /\ interpretations fresh = [] /\ responses fresh = [] /\
  customer_id fresh = customer /\
  (forall other, other <> cid -> active_calls w' !! other = active_calls w !! other) /\
  (forall cs, active_calls w !! cid = Some cs ->
              ensure_call agents cid w = (Returned tt, w)).
Proof.
  cbv zeta. repeat apply conj; try reflexivity.
  - cbn. apply lookup_insert_eq.
  - intros other Hne. cbn. apply lookup_insert_ne. congruence.
  - intros cs Hcs. destruct (ensure_call_spec agents cid w) as (w1 & H1 & _ & H2).
    rewrite Hcs in H2. subst w1. exact H1.
Qed.

(** *** The customer aggregates at the end of a call *)

Lemma inject_pred (n : Z) : inject_Z (n - 1) == inject_Z n - 1.
Proof. unfold Z.sub. rewrite inject_Z_plus. reflexivity. Qed.

Lemma metrics_satisfaction (customer customer' : Customer) (outcome : Outcome) (s : Q) :
  satisfaction outcome = JVal s ->
  update_customer_metrics customer outcome = Returned customer' ->
  total_calls customer' = (total_calls customer + 1)%Z /\
  satisfaction_avg customer' ==
    (satisfaction_avg customer * (inject_Z (total_calls customer') - 1) + s)
    / inject_Z (total_calls customer').
Proof.
  intros Hs. unfold update_customer_metrics. rewrite Hs. cbn [andb].
  destruct (total_calls customer + 1 =? 0)%Z; [discriminate|].
  intros H. inversion H; subst customer'; clear H. cbn.
  split; [reflexivity|].
  rewrite inject_pred. reflexivity.
Qed.

Lemma metrics_resolved (customer customer' : Customer) (outcome : Outcome) :
  truthy (resolved outcome) = true ->
  update_customer_metrics customer outcome = Returned customer' ->
  resolution_rate customer' ==
    (resolution_rate customer * (inject_Z (total_calls customer') - 1) + 1)
    / inject_Z (total_calls customer').
Proof.
  intros Hr. unfold update_customer_metrics. rewrite Hr.
  destruct (_ && _); [discriminate|].
  intros H. inversion H; subst customer'; clear H. cbn.
  rewrite inject_pred.
  apply Qdiv_comp; [apply Qplus_comp|]; reflexivity.
Qed.

Lemma metrics_unresolved (customer customer' : Customer) (outcome : Outcome) :
  truthy (resolved outcome) = false ->
  update_customer_metrics customer outcome = Returned customer' ->
  resolution_rate customer' = resolution_rate customer.
Proof.
  intros Hr. unfold update_customer_metrics. rewrite Hr.
  destruct (_ && _); [discriminate|].
  intros H. inversion H; subst customer'; clear H. reflexivity.
Qed.

(** C4, the failing case: a customer with one resolved call
    (resolution_rate 1.0) ends a second call with satisfaction 0.6 and
    resolved false.  The satisfaction average follows the rule, (0.8 * 1 +
    0.6) / 2 = 0.7, but the resolution rate stays 1.0 where the rule with
    new_value 0 gives (1.0 * 1 + 0) / 2 = 0.5. *)
Theorem unresolved_call_keeps_resolution_rate :
  let outcome := {| satisfaction := JVal 0.6; resolved := JVal false |} in
  let run := end_call failing_agents "c1" outcome world_c1 in
  fst run = Returned tt /\
  active_calls (snd run) !! "c1" = None /\
  exists customer',
    customers (snd run) !! "alice" = Some customer' /\
    total_calls customer' = 2%Z /\
    satisfaction_avg customer' == 0.7 /\
    resolution_rate customer' == 1.0 /\
    ~ resolution_rate customer' ==
        (resolution_rate alice * (inject_Z (total_calls customer') - 1) + 0)
        / inject_Z (total_calls customer').
Proof.
  cbv zeta. repeat apply conj; try reflexivity.
  eexists. split; [reflexivity|]. cbn.
  repeat apply conj; try reflexivity.
  vm_compute. discriminate.
Qed.

End Orchestrator.

(** ** Doubles *)

Module Binary64Facts.

Import Binary64.
Set Warnings "-inexact-float".
Local Open Scope float_scope.

(** The values of C9 are also what the code computes on doubles: each
    result is the double nearest to the decimal of the claim. *)
Lemma default_update_on_doubles :
  moving_average 0.9 0.5 = 0.54 /\
  moving_average 1.0 0.5 = 0.55 /\
  success_of (moving_average 0.9 0.5) (moving_average 1.0 0.5) = 0.544.
Proof. repeat apply conj; vm_compute; reflexivity. Qed.

(** The composite score of the scenario of C1 is the double 0.77. *)
Lemma composite_on_doubles : composite 0.8 0.2 1.0 = 0.77.
Proof. vm_compute. reflexivity. Qed.

(** *** Repeated best outcomes *)








Set Warnings "+inexact-float".

End Binary64Facts.

(** ** More on ranking *)

Module RankingFacts.

Import CriticRanker.
Local Open Scope list_scope.
Local Open Scope Q_scope.

Lemma insert_desc_length (x : RankedResponse) (l : list RankedResponse) :
  length (insert_desc x l) = S (length l).
Proof.
  induction l as [|y l IH]; [reflexivity|].
  cbn. destruct (Qltb _ _); cbn; [rewrite IH|]; reflexivity.
Qed.

Lemma sort_desc_length (l : list RankedResponse) : length (sort_desc l) = length l.
Proof.
  induction l as [|x l IH]; [reflexivity|].
  change (sort_desc (x :: l)) with (insert_desc x (sort_desc l)).
  rewrite insert_desc_length, IH. reflexivity.
Qed.

Lemma insert_desc_perm (x : RankedResponse) (l : list RankedResponse) :
  insert_desc x l ≡ₚ x :: l.
Proof.
  induction l as [|y l IH]; [reflexivity|].
  cbn. destruct (Qltb _ _); [|reflexivity].
  rewrite IH. apply Permutation_swap.
Qed.

Lemma sort_desc_perm (l : list RankedResponse) : sort_desc l ≡ₚ l.
Proof.
  induction l as [|x l IH]; [reflexivity|].
  change (sort_desc (x :: l)) with (insert_desc x (sort_desc l)).
  rewrite insert_desc_perm, IH. reflexivity.
Qed.

Lemma insert_desc_sorted (x : RankedResponse) (l : list RankedResponse) :
  StronglySorted before l -> StronglySorted before (insert_desc x l).
Proof.
  induction l as [|y l IH]; intros Hs.
  - cbn. repeat constructor.
  - cbn. apply StronglySorted_inv in Hs as [Hl Hy].
    destruct (Qltb (sort_key x) (sort_key y)) eqn:E.
    + apply Qltb_true in E. constructor; [apply IH; exact Hl|].
      rewrite insert_desc_perm. constructor; [|exact Hy].
      unfold before. apply Qlt_le_weak. exact E.
    + apply Qltb_false in E. constructor; [constructor; assumption|].
      constructor; [exact E|].
      eapply Forall_impl; [exact Hy|].
      intros z Hz. unfold before in *. eapply Qle_trans; eassumption.
Qed.

Lemma sort_desc_sorted (l : list RankedResponse) : StronglySorted before (sort_desc l).
Proof.
  induction l as [|x l IH]; [constructor|].
  change (sort_desc (x :: l)) with (insert_desc x (sort_desc l)).
  apply insert_desc_sorted. exact IH.
Qed.

(** A list that is already in order is left as it is. *)
Lemma sort_desc_of_sorted (l : list RankedResponse) :
  StronglySorted before l -> sort_desc l = l.
Proof.
  induction l as [|x l IH]; intros Hs; [reflexivity|].
  apply StronglySorted_inv in Hs as [Hl Hx].
  change (sort_desc (x :: l)) with (insert_desc x (sort_desc l)).
  rewrite (IH Hl). destruct l as [|y l]; [reflexivity|].
  cbn. apply Forall_cons in Hx as [Hxy _]. unfold before in Hxy.
  apply Qltb_false in Hxy. rewrite Hxy. reflexivity.
Qed.

Lemma add_ranking_length (i : Z) (l : list RankedResponse) :
  length (add_ranking i l) = length l.
Proof.
  revert i. induction l as [|x l IH]; intros i; [reflexivity|].
  cbn. rewrite IH. reflexivity.
Qed.

Lemma add_ranking_lookup (i : Z) (l : list RankedResponse) (k : nat) (r : RankedResponse) :
  add_ranking i l !! k = Some r ->
  rr_ranking r = (i + Z.of_nat k + 1)%Z /\
  exists x, l !! k = Some x /\
            rr_option r = rr_option x /\ rr_result r = rr_result x /\
            rr_predicted_reactions r = rr_predicted_reactions x.
Proof.
  revert i k. induction l as [|x l IH]; intros i k H; [discriminate|].
  destruct k as [|k]; cbn in H.
  - inversion H; subst r; clear H. cbn. split; [lia|]. exists x. repeat split.
  - apply IH in H as (Hr & y & Hy & Ho). split; [lia|]. exists y. split; [exact Hy|exact Ho].
Qed.

Lemma add_ranking_content (i : Z) (l : list RankedResponse) :
  map content (add_ranking i l) = map content l.
Proof.
  revert i. induction l as [|x l IH]; intros i; [reflexivity|].
  cbn. rewrite IH. reflexivity.
Qed.

Section Ranking.

Variable py_hash : string -> Z.
Variable value_network : option (list Q -> Q).
Variable weights : Weights.
Variable plans : list DialoguePlan.
Variable customer_context : CustomerContext.
Variable current_sentiment : Sentiment.

Let ranked :=
  rank_responses py_hash value_network weights plans customer_context current_sentiment.

(** The ranker returns one entry per plan, and the entry at position [k]
    (from 0) has ranking [k + 1]. *)
Theorem ranking_is_position :
  length ranked = length plans /\
  forall (k : nat) (r : RankedResponse),
    ranked !! k = Some r -> rr_ranking r = (Z.of_nat k + 1)%Z.
Proof.
  unfold ranked, rank_responses. split.
  - rewrite add_ranking_length, sort_desc_length, length_map. reflexivity.
  - intros k r H. apply add_ranking_lookup in H as [H _]. lia.
Qed.

(** Scores never increase along the ranking. *)
Theorem ranking_scores_descend (i j : nat) (ri rj : RankedResponse) :
  (i <= j)%nat ->
  ranked !! i = Some ri -> ranked !! j = Some rj ->
  score (rr_result rj) <= score (rr_result ri).
Proof.
  unfold ranked, rank_responses. intros Hij Hi Hj.
  apply add_ranking_lookup in Hi as (_ & xi & Hxi & _ & Hri & _).
  apply add_ranking_lookup in Hj as (_ & xj & Hxj & _ & Hrj & _).
  rewrite Hri, Hrj.
  match type of Hxi with sort_desc ?l !! _ = _ =>
    pose proof (sort_desc_sorted l) as Hs; set (s := sort_desc l) in * end.
  clearbody s. clear ri rj Hri Hrj.
  destruct (decide (i = j)) as [->|Hne].
  - rewrite Hxi in Hxj. inversion Hxj. apply Qle_refl.
  - assert (Hlt : (i < j)%nat) by lia. clear Hij Hne.
    revert i j Hlt Hxi Hxj. induction Hs as [|y l Hl IH Hy]; intros i j Hlt Hxi Hxj.
    + discriminate.
    + destruct j as [|j]; [lia|]. cbn in Hxj. destruct i as [|i]; cbn in Hxi.
      * inversion Hxi; subst y.
        rewrite Forall_forall in Hy. apply (Hy xj).
        apply list_elem_of_lookup. eauto.
      * apply (IH i j); [lia|assumption..].
Qed.

(** The ranking holds every scored candidate exactly once: it is a
    rearrangement of the candidates with their scores and reactions. *)
Theorem ranking_is_rearrangement :
  map content ranked ≡ₚ
  map (scored_of py_hash value_network weights customer_context current_sentiment) plans.
Proof.
  unfold ranked, rank_responses.
  rewrite add_ranking_content, sort_desc_perm, map_map. reflexivity.
Qed.

Lemma insert_desc_ties (k : Q) (x : RankedResponse) (l : list RankedResponse) :
  List.filter (has_score k) (map content (insert_desc x l)) =
  List.filter (has_score k) (map content (x :: l)).
Proof.
  induction l as [|y l IH]; [reflexivity|].
  cbn [insert_desc]. destruct (Qltb (sort_key x) (sort_key y)) eqn:E; [|reflexivity].
  apply Qltb_true in E.
  cbn [map List.filter] in IH |- *. rewrite IH.
  destruct (has_score k (content x)) eqn:Hx; [|reflexivity].
  destruct (has_score k (content y)) eqn:Hy; [|reflexivity].
  exfalso. unfold has_score, content in Hx, Hy. cbn in Hx, Hy.
  apply Qeq_bool_iff in Hx, Hy. unfold sort_key in E.
  rewrite Hx, Hy in E. apply (Qlt_irrefl _ E).
Qed.

Lemma sort_desc_ties (k : Q) (l : list RankedResponse) :
  List.filter (has_score k) (map content (sort_desc l)) =
  List.filter (has_score k) (map content l).
Proof.
  induction l as [|x l IH]; [reflexivity|].
  change (sort_desc (x :: l)) with (insert_desc x (sort_desc l)).
  rewrite insert_desc_ties. cbn [map List.filter]. rewrite IH. reflexivity.
Qed.

(** The sort is stable: the candidates that share a score stand in the
    ranking in the order of the input. *)
Theorem ranking_keeps_order_of_ties (k : Q) :
  List.filter (has_score k) (map content ranked) =
  List.filter (has_score k)
    (map (scored_of py_hash value_network weights customer_context current_sentiment) plans).
Proof.
  unfold ranked, rank_responses.
  rewrite add_ranking_content, sort_desc_ties, map_map. reflexivity.
Qed.

End Ranking.

Lemma ranking_scores_descend_witness :
  let ranked :=
    rank_responses (fun _ => 0%Z) (Some (fun _ => 0)) initial_weights
      [Scenario.candidate_plan; Scenario.better_plan] Scenario.some_profile Scenario.neutral in
  exists ri rj,
    ranked !! 0%nat = Some ri /\ ranked !! 1%nat = Some rj /\
    score (rr_result rj) <= score (rr_result ri).
Proof.
  cbv zeta. eexists. eexists. split; [reflexivity|]. split; [reflexivity|].
  apply (ranking_scores_descend (fun _ => 0%Z) (Some (fun _ => 0)) initial_weights
           [Scenario.candidate_plan; Scenario.better_plan]
           Scenario.some_profile Scenario.neutral 0 1); [lia|reflexivity..].
Defined.

(** Without a value network every candidate gets the score 0.5 of the
    [except] branch, and the ranking is the input order. *)
Theorem ranking_without_value_network (py_hash : string -> Z) (weights : Weights)
    (plans : list DialoguePlan) (ctx : CustomerContext) (sentiment : Sentiment) :
  let ranked := rank_responses py_hash None weights plans ctx sentiment in
  map content ranked = map (scored_of py_hash None weights ctx sentiment) plans /\
  Forall (fun r => score (rr_result r) = 0.5 /\ composite_score (rr_result r) = None) ranked.
Proof.
  cbv zeta. unfold rank_responses.
  set (scored := map _ plans).
  assert (Hhalf : Forall (fun r => score (rr_result r) = 0.5 /\
                                    composite_score (rr_result r) = None) scored).
  { unfold scored. apply Forall_forall. intros r Hr.
    apply list_elem_of_fmap in Hr as (plan & -> & _). cbn. split; reflexivity. }
  assert (Hsorted : StronglySorted before scored).
  { clearbody scored. induction Hhalf as [|r l [Hr _] Hl IH]; constructor; [exact IH|].
    eapply Forall_impl; [exact Hl|]. intros y [Hy _].
    unfold before, sort_key. rewrite Hr, Hy. apply Qle_refl. }
  rewrite (sort_desc_of_sorted scored Hsorted). split.
  - rewrite add_ranking_content. unfold scored. rewrite map_map. reflexivity.
  - clearbody scored. clear Hsorted. generalize 0%Z as i.
    induction Hhalf as [|r l Hr Hl IH]; intros i; cbn; constructor; [exact Hr|apply IH].
Qed.

(** The encoded state always has [state_dim] = 128 features. *)
Theorem encoded_state_length (py_hash : string -> Z) (opt : ResponseOption)
    (plan : DialoguePlan) (ctx : CustomerContext) (sentiment : Sentiment) :
  length (_encode_state py_hash opt plan ctx sentiment) = 128%nat.
Proof.
  unfold _encode_state.
  destruct (default [] (predicted_reactions plan)); cbv zeta;
    rewrite length_take, length_app, length_replicate; reflexivity.
Qed.

(** The efficiency score lies between 0 and 1.25; it is 0 exactly for
    texts of 250 characters or more, and above 1 exactly for texts
    shorter than 50 characters. *)
Theorem efficiency_range (opt : ResponseOption) :
  let n := String.length (default "" (text opt)) in
  0 <= efficiency_of opt <= 1.25 /\
  (efficiency_of opt == 0 <-> (250 <= n)%nat) /\
  (1 < efficiency_of opt <-> (n < 50)%nat).
Proof.
  cbv zeta. unfold efficiency_of, Qlen.
  set (n := String.length (default "" (text opt))).
  set (x := inject_Z (Z.of_nat n)).
  assert (Hx : 0 <= x).
  { unfold x. change 0 with (inject_Z 0). rewrite <- Zle_Qle. lia. }
  assert (Hlt : forall m : nat, (n < m)%nat <-> x < inject_Z (Z.of_nat m)).
  { intros m. unfold x. rewrite <- Zlt_Qlt. lia. }
  assert (Hle : forall m : nat, (m <= n)%nat <-> inject_Z (Z.of_nat m) <= x).
  { intros m. unfold x. rewrite <- Zle_Qle. lia. }
  specialize (Hlt 50%nat). specialize (Hle 250%nat).
  change (inject_Z (Z.of_nat 50)) with 50 in Hlt.
  change (inject_Z (Z.of_nat 250)) with 250 in Hle.
  destruct (Q.max_spec 0.0 (1.0 - (x - 50) / 200.0)) as [[Hc ->]|[Hc ->]].
  - assert (Hv : 1.0 - (x - 50) / 200.0 == (250 - x) / 200) by field.
    rewrite Hv in *. clear Hv.
    assert (H250 : x < 250).
    { apply Qnot_le_lt. intros H. apply (Qlt_not_le _ _ Hc).
      apply Qle_shift_div_r; [reflexivity|]. lra. }
    assert (Hval : (250 - x) / 200 == 1.25 - x / 200) by field.
    rewrite Hval. clear Hc Hval.
    assert (Hdiv : x / 200 == x * (1 # 200)) by reflexivity.
    rewrite Hdiv. split; [split; lra|]. split; split; intros H.
    + apply Hle. lra.
    + apply Hle in H. lra.
    + apply Hlt. lra.
    + apply Hlt in H. lra.
  - assert (Hv : 1.0 - (x - 50) / 200.0 == 1.25 - x * (1 # 200)) by field.
    rewrite Hv in Hc. split; [split; lra|]. split; split; intros H.
    + apply Hle. lra.
    + lra.
    + lra.
    + apply Hlt in H. lra.
Qed.

End RankingFacts.

(** ** Dialogue planning *)

Module PlannerFacts.

Import Planner.
Local Open Scope list_scope.
Local Open Scope Q_scope.

(** The options numbered from [i] carry numbers from [i] on, each at
    most once. *)
Lemma number_options_ids (persona : option string) (i : nat)
    (options : list (option RawOption)) :
  Forall (fun o => exists k, (i <= k < i + length options)%nat /\
                             id o = "response_" +:+ pretty k /\
                             Planner.persona o = persona)
         (number_options persona i options) /\
  NoDup (map id (number_options persona i options)).
Proof.
  revert i. induction options as [|[raw|] rest IH]; intros i.
  - split; constructor.
  - destruct (IH (S i)) as [Hall Hnd]. cbn [number_options]. split.
    + constructor.
      * exists i. cbn. repeat split; lia.
      * eapply Forall_impl; [exact Hall|].
        intros o (k & Hk & Hid). exists k. cbn [length]. split; [lia|exact Hid].
    + cbn [map]. constructor; [|exact Hnd].
      intros Hin. apply list_elem_of_fmap in Hin as (o & Hid & Ho).
      rewrite Forall_forall in Hall. destruct (Hall o Ho) as (k & Hk & Hidk & _).
      cbn [with_metadata id] in Hid. rewrite Hidk in Hid.
      apply (inj (String.app "response_")) in Hid.
      apply (inj pretty) in Hid. lia.
  - destruct (IH (S i)) as [Hall Hnd]. cbn [number_options]. split; [|exact Hnd].
    eapply Forall_impl; [exact Hall|].
    intros o (k & Hk & Hid). exists k. cbn [length]. split; [lia|exact Hid].
Qed.

(** Whatever the client answers, the options returned carry pairwise
    different ids of the form response_<n> and the persona asked for; and
    there are at most as many as the client gave. *)
Theorem option_ids_distinct (client : option Client) (utterance : string)
    (intent : option string) (sentiment : option Sentiment) (persona : option string) :
  let options := generate_response_options client utterance intent sentiment persona in
  NoDup (map id options) /\
  Forall (fun o => (exists k : nat, id o = "response_" +:+ pretty k) /\
                   Planner.persona o = persona) options.
Proof.
  cbv zeta. unfold generate_response_options.
  assert (Hnum : forall raw,
             NoDup (map id (number_options persona 0 raw)) /\
             Forall (fun o => (exists k : nat, id o = "response_" +:+ pretty k) /\
                              Planner.persona o = persona)
                    (number_options persona 0 raw)).
  { intros raw. destruct (number_options_ids persona 0 raw) as [Hall Hnd].
    split; [exact Hnd|]. eapply Forall_impl; [exact Hall|].
    intros o (k & _ & Hid & Hp). split; [exists k; exact Hid|exact Hp]. }
  destruct sentiment as [s|]; [|split; constructor].
  destruct client as [c|]; [|apply Hnum].
  destruct (complete_options c utterance intent s persona); [apply Hnum|split; constructor].
Qed.

(** Without a client the plans come from the templates and the fixed
    reaction estimates.  Without a sentiment there is no plan.  With one
    there are one or two plans, each with three reactions, and all carry
    the same two expectations, which depend on the sentiment only through
    the test polarity < -0.3.  On the doubles of the code the
    expectations are -0.09999999999999999 and 0.47000000000000003 when the
    test holds, and 0.35 and 0.7700000000000001 otherwise: the sums of
    the products are rounded, and the weights 0.7, 0.2, 0.1 do not add up
    to 1.0. *)
Theorem template_plans (utterance : string) (intent : option string)
    (sentiment : option Sentiment) (persona customer_type : option string) :
  let plans := plan_dialogue None utterance intent sentiment persona customer_type in
  match sentiment with
  | None => plans = []
  | Some current_sentiment =>
    let low := Qltb (default 0.0 (polarity current_sentiment)) (-0.3) in
    (length plans = 1%nat \/ length plans = 2%nat) /\
    Forall (fun plan =>
              expected_sentiment_improvement plan = fallback_improvement low /\
              expected_resolution_probability plan = fallback_resolution low /\
              length (predicted_reactions plan) = 3%nat)
           plans
  end.
Proof.
  cbv zeta. unfold plan_dialogue, generate_response_options, predict_customer_reactions.
  destruct sentiment as [current_sentiment|]; [|reflexivity].
  split.
  - rewrite length_map. unfold _generate_template_responses.
    repeat case_bool_decide; cbn; auto.
  - apply Forall_forall. intros plan Hin.
    apply list_elem_of_fmap in Hin as (o & -> & _).
    cbn [expected_sentiment_improvement expected_resolution_probability
         predicted_reactions].
    unfold _estimate_reactions_fallback.
    destruct (Qltb _ _); repeat split; vm_compute; reflexivity.
Qed.

End PlannerFacts.

(** ** More on persona selection *)

Module PersonaFacts.

Import HistoryRL.
Local Open Scope list_scope.
Local Open Scope Q_scope.

(** The loop of [select_optimal_persona] over any list of personas: the
    best score is at least every score seen and at least the starting
    one; and either nothing beat the starting score, or the best persona
    is the first one of the list that reaches the best score. *)
Lemma scan_loop (cache : gmap string Performance) (ct : string)
    (personas : list string) (start : option string * Q) :
  let score p := persona_score (entry_at cache ct p) in
  let out := fold_left (scan_step cache ct) personas start in
  snd start <= snd out /\
  (forall p, p ∈ personas -> score p <= snd out) /\
  (out = start \/
   exists l1 q l2,
     personas = l1 ++ q :: l2 /\ out = (Some q, score q) /\
     snd start < score q /\
     (forall p, p ∈ l1 -> score p < score q)).
Proof.
  cbv zeta. revert start.
  induction personas as [|x l IH]; intros start.
  - cbn. split; [apply Qle_refl|]. split; [|left; reflexivity].
    intros p Hp. apply elem_of_nil in Hp. contradiction.
  - cbn [fold_left].
    set (sx := persona_score (entry_at cache ct x)).
    assert (Hstep : scan_step cache ct start x =
                    if Qltb (snd start) sx then (Some x, sx) else start) by reflexivity.
    rewrite Hstep. clear Hstep.
    destruct (Qltb (snd start) sx) eqn:E.
    + apply Qltb_true in E.
      destruct (IH (Some x, sx)) as (H1 & H2 & H3). cbn [snd] in H1.
      split; [lra|]. split.
      * intros p Hp. apply elem_of_cons in Hp as [->|Hp]; [exact H1|apply H2; exact Hp].
      * right. destruct H3 as [H3|(l1 & q & l2 & Hl & Hout & Hq & Hbefore)].
        -- exists [], x, l. split; [reflexivity|]. split; [exact H3|]. split; [exact E|].
           intros p Hp. apply elem_of_nil in Hp. contradiction.
        -- exists (x :: l1), q, l2. cbn [snd] in Hq.
           split; [rewrite Hl; reflexivity|]. split; [exact Hout|]. split; [lra|].
           intros p Hp. apply elem_of_cons in Hp as [->|Hp]; [exact Hq|apply Hbefore; exact Hp].
    + apply Qltb_false in E.
      destruct (IH start) as (H1 & H2 & H3).
      split; [exact H1|]. split.
      * intros p Hp. apply elem_of_cons in Hp as [->|Hp]; [|apply H2; exact Hp].
        fold sx. lra.
      * destruct H3 as [H3|(l1 & q & l2 & Hl & Hout & Hq & Hbefore)]; [left; exact H3|].
        right. exists (x :: l1), q, l2.
        split; [rewrite Hl; reflexivity|]. split; [exact Hout|]. split; [exact Hq|].
        intros p Hp. apply elem_of_cons in Hp as [->|Hp]; [|apply Hbefore; exact Hp].
        fold sx. lra.
Qed.

Lemma fallback_in_list (intent : option string) (sentiment : Sentiment) :
  fallback_persona intent sentiment ∈ PERSONA_TYPES.
Proof.
  unfold fallback_persona, PERSONA_TYPES.
  destruct (_ || _); [set_solver|].
  repeat case_bool_decide; set_solver.
Qed.

Lemma persona_not_empty (p : string) : p ∈ PERSONA_TYPES -> String.eqb p "" = false.
Proof.
  unfold PERSONA_TYPES. intros H.
  repeat (apply elem_of_cons in H as [->|H]; [reflexivity|]).
  apply elem_of_nil in H. contradiction.
Qed.

(** Whatever the table holds, the selected persona is one of the eight
    persona types. *)
Theorem selected_persona_is_known (cache : gmap string Performance)
    (ct : string) (intent : option string) (sentiment : Sentiment) :
  select_optimal_persona cache ct intent sentiment ∈ PERSONA_TYPES.
Proof.
  unfold select_optimal_persona.
  destruct (needs_fallback (scan_personas cache ct)) eqn:E.
  - pose proof (fallback_in_list intent sentiment) as H.
    cbn [or_friendly]. rewrite (persona_not_empty _ H). exact H.
  - unfold scan_personas in *.
    destruct (scan_loop cache ct PERSONA_TYPES (None, 0)) as (_ & _ & [H|H]).
    + rewrite H in E. discriminate.
    + destruct H as (l1 & q & l2 & Hl & Hout & _). rewrite Hout. cbn [fst or_friendly].
      assert (Hq : q ∈ PERSONA_TYPES).
      { rewrite Hl. apply elem_of_app. right. apply elem_of_cons. left. reflexivity. }
      rewrite (persona_not_empty _ Hq). exact Hq.
Qed.





(** An update keeps the rates of the entry between 0 and 1 when the
    reported satisfaction lies there, and counts one more call. *)
Theorem update_keeps_rates (cache : gmap string Performance) (ct pt : string)
    (outcome : Outcome) :
  let before := entry_at cache ct pt in
  let after := entry_at (fst (update_persona_performance cache ct pt outcome)) ct pt in
  is_rate (satisfaction_avg before) ->
  is_rate (resolution_rate before) ->
  match satisfaction outcome with
  | JVal s => is_rate s
  | Missing => True
  | JNull => False
  end ->
  is_rate (satisfaction_avg after) /\
  is_rate (resolution_rate after) /\
  is_rate (success_rate after) /\
  call_count after = (call_count before + 1)%Z.
Proof.
  cbv zeta. unfold is_rate. intros Hs Hr Ho.
  destruct (PersonaSelector.update_entry_returns (entry_at cache ct pt) outcome)
    as [perf' Hupd].
  { intros Hnull. rewrite Hnull in Ho. exact Ho. }
  rewrite (PersonaSelector.entry_after_update cache ct pt outcome perf' Hupd).
  unfold update_entry in Hupd.
  set (e := entry_at cache ct pt) in *.
  destruct (satisfaction outcome) as [| |s]; [|contradiction|];
    destruct (resolved outcome) as [| |[|]];
    inversion Hupd; subst perf'; clear Hupd; cbn; unfold alpha;
    repeat apply conj; try reflexivity; lra.
Qed.

Lemma update_keeps_rates_witness :
  let after :=
    entry_at (fst (update_persona_performance ∅ "new" "friendly_casual"
                     {| satisfaction := JVal 0.25; resolved := JVal false |}))
      "new" "friendly_casual" in
  is_rate (satisfaction_avg after) /\
  is_rate (resolution_rate after) /\
  is_rate (success_rate after) /\
  call_count after = 1%Z.
Proof.
  assert (H1 : is_rate (satisfaction_avg (entry_at ∅ "new" "friendly_casual")))
    by (unfold is_rate; split; vm_compute; discriminate).
  assert (H2 : is_rate (resolution_rate (entry_at ∅ "new" "friendly_casual")))
    by (unfold is_rate; split; vm_compute; discriminate).
  assert (H3 : is_rate 0.25) by (unfold is_rate; lra).
  exact (update_keeps_rates ∅ "new" "friendly_casual"
           {| satisfaction := JVal 0.25; resolved := JVal false |} H1 H2 H3).
Defined.

(** An update changes the entry of its own key only. *)
Theorem update_leaves_other_keys (cache : gmap string Performance) (ct pt : string)
    (outcome : Outcome) (key : string) :
  key <> performance_key ct pt ->
  fst (update_persona_performance cache ct pt outcome) !! key = cache !! key.
Proof.
  intros Hne. unfold update_persona_performance. cbv zeta.
  assert (Hens : ensure_entry cache (performance_key ct pt) !! key = cache !! key).
  { unfold ensure_entry. destruct (cache !! performance_key ct pt); [reflexivity|].
    apply lookup_insert_ne. congruence. }
  destruct (update_entry _ outcome); cbn [fst]; [|exact Hens].
  rewrite lookup_insert_ne by congruence. exact Hens.
Qed.

Lemma update_leaves_other_keys_witness :
  fst (update_persona_performance
         {[ performance_key "new" "assertive_direct" := default_performance ]}
         "new" "friendly_casual" best_outcome)
    !! performance_key "new" "assertive_direct" = Some default_performance.
Proof.
  rewrite (update_leaves_other_keys _ "new" "friendly_casual" best_outcome
             (performance_key "new" "assertive_direct")).
  - reflexivity.
  - discriminate.
Defined.

(** An outcome whose satisfaction is null loses the whole update: the
    multiplication raises before anything is assigned, so the entry keeps
    its rates and its call count even when the outcome says whether the
    call was resolved, and an error is logged. *)
Theorem null_satisfaction_loses_update (cache : gmap string Performance)
    (ct pt : string) (r : jfield bool) :
  let outcome := {| satisfaction := JNull; resolved := r |} in
  entry_at (fst (update_persona_performance cache ct pt outcome)) ct pt
  = entry_at cache ct pt /\
  is_Some (snd (update_persona_performance cache ct pt outcome)).
Proof.
  cbv zeta. unfold update_persona_performance. cbn. split; [|eauto].
  unfold entry_at. rewrite PersonaSelector.ensure_entry_lookup. reflexivity.
Qed.

Ltac solve_label :=
  repeat apply conj;
  first
    [ set_solver
    | discriminate
    | split; [discriminate|intros; contradiction]
    | split; intros; [assumption|reflexivity]
    | intros _; split; assumption
    | intros _; assumption ].

(** The labels of the classification say what they name: "new" is given
    exactly to a profile with no call, and each other label implies the
    test that stands for it. *)
Theorem labels_are_sound (profile : Profile) (intent : option string)
    (sentiment : Sentiment) :
  let label := classify_customer_type profile intent sentiment in
  let calls := default 0%Z (total_calls profile) in
  label ∈ ["new"; "loyal_positive"; "frustrated"; "complainer"; "repeat"; "regular"] /\
  (label = "new" <-> calls = 0%Z) /\
  (label = "loyal_positive" ->
   (10 < calls)%Z /\ 0.7 < default 0.0 (profile_satisfaction_avg profile)) /\
  (label = "frustrated" -> default 0.0 (polarity sentiment) < -0.3) /\
  (label = "complainer" -> intent = Some "complaint") /\
  (label = "repeat" -> (5 < calls)%Z).
Proof.
  cbv zeta. unfold classify_customer_type.
  destruct (Z.eqb_spec (default 0%Z (total_calls profile)) 0) as [H0|H0];
    [solve_label|].
  destruct (Z.ltb_spec 10 (default 0%Z (total_calls profile))) as [H10|H10];
    cbn [andb];
    [destruct (Qltb 0.7 _) eqn:Hs; [apply Qltb_true in Hs; solve_label|]|];
    (destruct (Qltb _ (-0.3)) eqn:Hp; [apply Qltb_true in Hp; solve_label|]);
    (case_bool_decide; [solve_label|]);
    destruct (Z.ltb_spec 5 (default 0%Z (total_calls profile))); solve_label.
Qed.

End PersonaFacts.

(** ** More on turn detection *)

Module TurnFacts.

Import Listener.
Local Open Scope list_scope.
Local Open Scope Q_scope.

Lemma frombuffer_parity (audio_data : list Z) :
  (Nat.even (length audio_data) = true ->
   exists arr, frombuffer_int16 audio_data = Some arr /\
               (2 * length arr = length audio_data)%nat) /\
  (Nat.even (length audio_data) = false -> frombuffer_int16 audio_data = None).
Proof.
  assert (H : forall n (l : list Z), (length l <= n)%nat ->
            (Nat.even (length l) = true ->
             exists arr, frombuffer_int16 l = Some arr /\ (2 * length arr = length l)%nat) /\
            (Nat.even (length l) = false -> frombuffer_int16 l = None)).
  { induction n as [|n IH]; intros l Hl.
    - destruct l; [|cbn in Hl; lia]. split; [|discriminate].
      intros _. exists []. split; reflexivity.
    - destruct l as [|lo [|hi rest]].
      + split; [|discriminate]. intros _. exists []. split; reflexivity.
      + split; [discriminate|reflexivity].
      + cbn [length] in Hl. destruct (IH rest ltac:(lia)) as [He Ho].
        change (Nat.even (length (lo :: hi :: rest))) with (Nat.even (length rest)).
        cbn [frombuffer_int16]. split.
        * intros E. destruct (He E) as (arr & -> & Hlen).
          exists (int16_of_bytes lo hi :: arr). split; [reflexivity|]. cbn [length]. lia.
        * intros E. rewrite (Ho E). reflexivity. }
  apply (H (length audio_data)). lia.
Qed.

(** [detect_turn_boundary] raises exactly on a chunk of odd length of at
    least 3 bytes; a chunk of fewer than 2 bytes gives no signal and
    leaves the timer as it is. *)
Theorem chunk_lengths (self : State) (audio_data : list Z) (t : Q) :
  ((exists msg, detect_turn_boundary self audio_data t = Raised msg) <->
   (3 <= length audio_data)%nat /\ Nat.even (length audio_data) = false) /\
  ((length audio_data < 2)%nat ->
   detect_turn_boundary self audio_data t = Returned (false, self)).
Proof.
  unfold detect_turn_boundary.
  destruct (Nat.ltb_spec (length audio_data) 2) as [Hshort|Hlong].
  - split; [|reflexivity]. split; [intros [msg H]; discriminate|lia].
  - split; [|lia].
    destruct (frombuffer_parity audio_data) as [He Ho].
    destruct (Nat.even (length audio_data)) eqn:E.
    + destruct (He eq_refl) as (arr & -> & _).
      split; [intros [msg H]; discriminate|intros [_ H]; discriminate].
    + rewrite (Ho eq_refl). split; [intros _; split; [|reflexivity]|eauto].
      destruct audio_data as [|a [|b [|c l]]]; cbn in *; try lia; discriminate.
Qed.

Lemma clipped_chunk_samples (n : nat) :
  frombuffer_int16 (clipped_chunk n) = Some (replicate n (-32768)%Z).
Proof.
  unfold clipped_chunk. induction n as [|n IH]; [reflexivity|].
  cbn [replicate concat app frombuffer_int16]. rewrite IH. reflexivity.
Qed.

Lemma clipped_sum (n : nat) :
  fold_right Z.add 0%Z (map abs_int16 (replicate n (-32768)%Z)) = (-32768 * Z.of_nat n)%Z.
Proof.
  induction n as [|n IH]; [reflexivity|].
  cbn [replicate map fold_right]. rewrite IH.
  change (abs_int16 (-32768)) with (-32768)%Z. lia.
Qed.

(** The absolute value wraps on the least 16-bit sample, so a chunk
    that is clipped at that value throughout has the energy -32768 and is
    taken for silence: it gives the same answer as a sample of energy 0. *)
Theorem clipped_chunk_is_silence (self : State) (n : nat) (t : Q) :
  (0 < n)%nat ->
  energy_of (replicate n (-32768)%Z) == -32768 /\
  detect_turn_boundary self (clipped_chunk n) t = Returned (observe self 0 t).
Proof.
  intros Hn.
  assert (He : energy_of (replicate n (-32768)%Z) == -32768).
  { unfold energy_of. rewrite clipped_sum, length_replicate.
    rewrite inject_Z_mult. field.
    intros H0. change 0 with (inject_Z 0) in H0. apply eq_inject_Z in H0 || idtac.
    revert H0. unfold Qeq. cbn. lia. }
  split; [exact He|].
  unfold detect_turn_boundary.
  assert (Hlen : (length (clipped_chunk n) <? 2)%nat = false).
  { apply Nat.ltb_ge. destruct n as [|n]; [lia|]. cbn. lia. }
  rewrite Hlen, clipped_chunk_samples. f_equal.
  unfold observe.
  assert (Hs : Qltb (energy_of (replicate n (-32768)%Z)) silence_threshold = true).
  { apply Qltb_true. rewrite He. reflexivity. }
  rewrite Hs. reflexivity.
Qed.

Lemma clipped_chunk_is_silence_witness :
  detect_turn_boundary (init VAD_SILENCE_THRESHOLD_MS) (clipped_chunk 160) 1
  = Returned (observe (init VAD_SILENCE_THRESHOLD_MS) 0 1).
Proof.
  apply (clipped_chunk_is_silence (init VAD_SILENCE_THRESHOLD_MS) 160 1). lia.
Defined.





End TurnFacts.

(** ** More on the orchestrator *)

Module CallFacts.

Import Pipeline Orchestrator.
Local Open Scope list_scope.
Local Open Scope Q_scope.

Section Preservation.

(** A relation between worlds that holds of a world and itself, and
    chains. *)
Variable R : World -> World -> Prop.
Hypothesis R_refl : forall w, R w w.
Hypothesis R_trans : forall w1 w2 w3, R w1 w2 -> R w2 w3 -> R w1 w3.
Hypothesis R_log : forall msg w, R w (add_log msg w).
Hypothesis R_advance : forall st w, R w (advance st w).

Lemma preserves_ret {A} (a : A) : preserves R (ret a).
Proof. intros w o w' H. inversion H. apply R_refl. Qed.

Lemma preserves_raise {A} (msg : string) : preserves R (@raise A msg).
Proof. intros w o w' H. inversion H. apply R_refl. Qed.

Lemma preserves_bind {A B} (m : M A) (k : A -> M B) :
  preserves R m -> (forall a, preserves R (k a)) -> preserves R (bind m k).
Proof.
  intros Hm Hk w o w' H. unfold bind in H.
  destruct (m w) as [[a|e] w1] eqn:E.
  - eapply R_trans; [eapply Hm; exact E|]. eapply Hk. exact H.
  - inversion H; subst. eapply Hm. exact E.
Qed.

Lemma preserves_try {A} (body : M A) (handler : string -> M A) :
  preserves R body -> (forall e, preserves R (handler e)) ->
  preserves R (try_except body handler).
Proof.
  intros Hb Hh w o w' H. unfold try_except in H.
  destruct (body w) as [[a|e] w1] eqn:E.
  - inversion H; subst. eapply Hb. exact E.
  - eapply R_trans; [eapply Hb; exact E|]. eapply Hh. exact H.
Qed.

Lemma preserves_log (msg : string) : preserves R (log msg).
Proof. intros w o w' H. inversion H. apply R_log. Qed.

Lemma preserves_ask {A} (f : nat -> A) : preserves R (ask f).
Proof. intros w o w' H. inversion H. apply R_advance. Qed.

Lemma preserves_await {A} (stage : Stage) (f : nat -> outcome_of A) :
  preserves R (await stage f).
Proof. intros w o w' H. inversion H. apply R_advance. Qed.

Lemma preserves_the_call (cid : string) : preserves R (the_call cid).
Proof.
  intros w o w' H. unfold the_call in H.
  destruct (active_calls w !! cid); inversion H; apply R_refl.
Qed.

Lemma preserves_gets {A} (f : World -> A) : preserves R (gets f).
Proof. intros w o w' H. inversion H. apply R_refl. Qed.

Lemma preserves_obtain_transcript (agents : Agents) (audio : AudioData) :
  preserves R (obtain_transcript agents audio).
Proof.
  unfold obtain_transcript. destruct audio as [b|s]; [|apply preserves_ret].
  apply preserves_try; [|intros e; apply preserves_await].
  destruct (decode_utf8 agents b) as [t|]; [|apply preserves_raise].
  destruct (_ && _); [apply preserves_ret|apply preserves_await].
Qed.

(** The body of a turn keeps [R] when the four mutations of the call
    state do. *)
Lemma preserves_turn_body (agents : Agents) (cid : string) (audio : AudioData)
    (speaker : string) (started : Q) :
  (forall f, (forall cs, extends cs (f cs)) -> preserves R (mutate_call cid f)) ->
  preserves R (turn_body agents cid audio speaker started).
Proof.
  intros Hmut. unfold turn_body.
  apply preserves_bind; [apply preserves_obtain_transcript|]. intros transcript.
  destruct (_ || _); [apply preserves_ret|].
  unfold analyse_turn.
  repeat first
    [ apply preserves_ret
    | apply preserves_ask
    | apply preserves_await
    | apply preserves_the_call
    | apply preserves_log
    | apply preserves_bind; [|intros ?]
    | match goal with |- preserves R (if ?c then _ else _) => destruct c end
    | apply Hmut; intros cs; unfold extends; cbn; repeat split;
      first [reflexivity | apply prefix_app_r; reflexivity] ].
Qed.

End Preservation.

Lemma alter_other (f : CallState -> CallState) (cid other : string)
    (calls : gmap string CallState) :
  other <> cid -> alter f cid calls !! other = calls !! other.
Proof. intros H. apply lookup_alter_ne. congruence. Qed.

Lemma extends_refl (cs : CallState) : extends cs cs.
Proof. unfold extends. repeat split; reflexivity. Qed.

Lemma extends_trans (a b c : CallState) : extends a b -> extends b c -> extends a c.
Proof.
  unfold extends. intros (H1 & H2 & H3 & H4 & H5 & H6) (G1 & G2 & G3 & G4 & G5 & G6).
  repeat split; try (etrans; eassumption); congruence.
Qed.

(** Processing a chunk of one call never touches the state of another
    call, whatever the agents do and however the turn ends. *)
Theorem other_calls_untouched (agents : Agents) (cid : string) (audio : AudioData)
    (speaker : string) (w : World) (other : string) :
  other <> cid ->
  active_calls (snd (process_audio_chunk agents cid audio speaker w)) !! other
  = active_calls w !! other.
Proof.
  intros Hne.
  assert (H : preserves (others_untouched cid)
                (process_audio_chunk agents cid audio speaker)).
  { assert (Hrefl : forall w0, others_untouched cid w0 w0) by (intros w0 o _; reflexivity).
    assert (Htrans : forall w1 w2 w3, others_untouched cid w1 w2 ->
                       others_untouched cid w2 w3 -> others_untouched cid w1 w3).
    { intros w1 w2 w3 H1 H2 o Ho. rewrite (H2 o Ho). apply H1. exact Ho. }
    assert (Hlog : forall msg w0, others_untouched cid w0 (add_log msg w0))
      by (intros msg w0 o _; reflexivity).
    assert (Hadv : forall st w0, others_untouched cid w0 (advance st w0))
      by (intros st w0 o _; reflexivity).
    unfold process_audio_chunk.
    apply preserves_bind; try assumption; [|intros _].
    - unfold ensure_call.
      apply preserves_bind; try assumption; [apply preserves_gets; assumption|intros known].
      destruct known; [apply preserves_ret; assumption|].
      apply preserves_bind; try assumption; [apply preserves_log; assumption|intros _].
      apply preserves_bind; try assumption; [apply preserves_ask; assumption|intros hex].
      unfold start_call.
      apply preserves_bind; try assumption; [apply preserves_ask; assumption|intros now].
      apply preserves_bind; try assumption; [|intros _; apply preserves_log; assumption].
      intros w0 o w0' Hm. inversion Hm; subst. intros x Hx. cbn.
      apply lookup_insert_ne. congruence.
    - apply preserves_bind; try assumption; [apply preserves_the_call; assumption|intros _].
      apply preserves_bind; try assumption; [apply preserves_ask; assumption|intros started].
      apply preserves_try; try assumption.
      + apply preserves_turn_body; try assumption.
        intros f _ w0 o w0' Hm. inversion Hm; subst. intros x Hx. cbn.
        apply alter_other. exact Hx.
      + intros e. apply preserves_bind; try assumption; [apply preserves_log; assumption|].
        intros _. apply preserves_ret; assumption. }
  destruct (process_audio_chunk agents cid audio speaker w) as [o w'] eqn:E.
  exact (H w o w' E other Hne).
Qed.

Lemma other_calls_untouched_witness :
  active_calls
    (snd (process_audio_chunk Scenario.working_agents "c2" (Bytes Scenario.hi_bytes)
            "customer" Scenario.world_c1)) !! "c1"
  = Some Scenario.call_c1.
Proof.
  rewrite (other_calls_untouched Scenario.working_agents "c2" (Bytes Scenario.hi_bytes)
             "customer" Scenario.world_c1 "c1").
  - reflexivity.
  - discriminate.
Defined.

(** The logs of a call are append-only: whatever the agents do and
    however the turn ends, a call that was active is still active
    afterwards, with the transcripts, interpretations and responses it
    had as the beginning of the new ones, and the same customer and start
    time. *)
Theorem logs_are_append_only (agents : Agents) (cid : string) (audio : AudioData)
    (speaker : string) (w : World) (cs : CallState) :
  active_calls w !! cid = Some cs ->
  exists cs',
    active_calls (snd (process_audio_chunk agents cid audio speaker w)) !! cid = Some cs' /\
    extends cs cs'.
Proof.
  intros Hcs.
  assert (H : preserves (logs_grow cid) (process_audio_chunk agents cid audio speaker)).
  { assert (Hrefl : forall w0, logs_grow cid w0 w0).
    { intros w0 c Hc. exists c. split; [exact Hc|apply extends_refl]. }
    assert (Htrans : forall w1 w2 w3, logs_grow cid w1 w2 ->
                       logs_grow cid w2 w3 -> logs_grow cid w1 w3).
    { intros w1 w2 w3 H1 H2 c Hc.
      destruct (H1 c Hc) as (c2 & Hc2 & E2). destruct (H2 c2 Hc2) as (c3 & Hc3 & E3).
      exists c3. split; [exact Hc3|]. eapply extends_trans; eassumption. }
    assert (Hlog : forall msg w0, logs_grow cid w0 (add_log msg w0)).
    { intros msg w0 c Hc. exists c. split; [exact Hc|apply extends_refl]. }
    assert (Hadv : forall st w0, logs_grow cid w0 (advance st w0)).
    { intros st w0 c Hc. exists c. split; [exact Hc|apply extends_refl]. }
    unfold process_audio_chunk.
    apply preserves_bind; try assumption; [|intros _].
    - intros w0 o w0' Hm.
      destruct (Orchestrator.ensure_call_spec agents cid w0) as (w1 & H1 & _ & H2).
      rewrite H1 in Hm. inversion Hm; subst w0'.
      intros c Hc. rewrite Hc in H2. subst w1.
      exists c. split; [exact Hc|apply extends_refl].
    - apply preserves_bind; try assumption; [apply preserves_the_call; assumption|intros _].
      apply preserves_bind; try assumption; [apply preserves_ask; assumption|intros started].
      apply preserves_try; try assumption.
      + apply preserves_turn_body; try assumption.
        intros f Hf w0 o w0' Hm. inversion Hm; subst. intros c Hc.
        exists (f c). split; [|apply Hf]. cbn.
        rewrite lookup_alter_eq, Hc. reflexivity.
      + intros e. apply preserves_bind; try assumption; [apply preserves_log; assumption|].
        intros _. apply preserves_ret; assumption. }
  destruct (process_audio_chunk agents cid audio speaker w) as [o w'] eqn:E.
  exact (H w o w' E cs Hcs).
Qed.

Lemma logs_are_append_only_witness :
  exists cs',
    active_calls
      (snd (process_audio_chunk Scenario.failing_agents "c1" (Text "Hi!") "customer"
              Scenario.world_c1)) !! "c1" = Some cs' /\
    extends Scenario.call_c1 cs'.
Proof.
  apply (logs_are_append_only Scenario.failing_agents "c1" (Text "Hi!") "customer"
           Scenario.world_c1 Scenario.call_c1).
  reflexivity.
Defined.

(** A call for which no customer turn was analysed has no customer
    context, and cannot be ended: [end_call] raises before its [try], and
    the world, with the call still active, is as before.  For a call id
    that is not active, [end_call] only logs a warning. *)
Theorem call_without_context_cannot_end (agents : Agents) (cid : string)
    (outcome : Outcome) (w : World) :
  (forall cs,
     active_calls w !! cid = Some cs -> customer_context cs = None ->
     exists msg, end_call agents cid outcome w = (Raised msg, w)) /\
  (active_calls w !! cid = None ->
   exists msg, end_call agents cid outcome w = (Returned tt, add_log msg w)).
Proof.
  unfold end_call, bind, gets. split.
  - intros cs Hcs Hctx. rewrite Hcs, Hctx. eexists. reflexivity.
  - intros Hnone. rewrite Hnone. eexists. reflexivity.
Qed.

Lemma save_call_fails (agents : Agents) (cid : string) (cs : CallState)
    (outcome : Outcome) (w : World) :
  db_available w = false \/ is_Some (call_history w !! cid) ->
  exists msg w',
    save_call agents cid cs outcome w = (Raised msg, w') /\ stores_untouched w w'.
Proof.
  intros Hfail. unfold save_call, bind, gets.
  destruct (db_available w) eqn:Hdb; cbn [negb].
  - destruct Hfail as [Hfail|[row Hrow]]; [discriminate|].
    cbn. rewrite Hrow. eexists. eexists. split; [reflexivity|].
    repeat split.
  - eexists. eexists. split; [reflexivity|]. repeat split.
Qed.

(** When the database session fails, because the database is not
    available or because the history already has a row with this call id,
    [end_call] returns normally, but nothing is stored, the persona
    performance is not updated, and the call stays active. *)
Theorem failed_save_keeps_call (agents : Agents) (cid : string) (outcome : Outcome)
    (w : World) (cs : CallState) (context : Context) :
  active_calls w !! cid = Some cs ->
  customer_context cs = Some context ->
  db_available w = false \/ is_Some (call_history w !! cid) ->
  fst (end_call agents cid outcome w) = Returned tt /\
  stores_untouched w (snd (end_call agents cid outcome w)) /\
  active_calls (snd (end_call agents cid outcome w)) !! cid = Some cs.
Proof.
  intros Hcs Hctx Hfail.
  destruct (save_call_fails agents cid cs outcome w Hfail) as (msg & w1 & Hsave & Hst).
  assert (Hrun : end_call agents cid outcome w
                 = (Returned tt, add_log ("Error ending call " +:+ cid +:+ ": " +:+ msg) w1)).
  { unfold end_call. unfold bind at 1. unfold gets at 1. rewrite Hcs, Hctx.
    unfold try_except. unfold bind at 1. rewrite Hsave. reflexivity. }
  rewrite Hrun. cbn [fst snd]. split; [reflexivity|].
  destruct Hst as (H1 & H2 & H3 & H4).
  split; [repeat split; assumption|].
  cbn. rewrite H1. exact Hcs.
Qed.

Lemma failed_save_keeps_call_witness :
  let w :=
    set_tables (customers Scenario.world_c1)
      {[ "c1" := {| ch_customer_id := "alice"; ch_persona_used := None;
                    ch_intent := None; ch_satisfaction_score := Missing;
                    ch_resolved := true; ch_duration_seconds := 60 |} ]}
      Scenario.world_c1 in
  fst (end_call Scenario.failing_agents "c1" HistoryRL.best_outcome w) = Returned tt /\
  stores_untouched w (snd (end_call Scenario.failing_agents "c1" HistoryRL.best_outcome w)) /\
  active_calls (snd (end_call Scenario.failing_agents "c1" HistoryRL.best_outcome w)) !! "c1"
  = Some Scenario.call_c1.
Proof.
  cbv zeta.
  eapply (failed_save_keeps_call Scenario.failing_agents "c1" HistoryRL.best_outcome).
  - reflexivity.
  - reflexivity.
  - right. eexists. reflexivity.
Defined.





(** *** What a completed turn leaves behind *)

Lemma ask_step {A} (f : nat -> A) (cid : string) (w w1 : World) (a : A) :
  ask f w = (Returned a, w1) ->
  active_calls w1 !! cid = active_calls w !! cid /\ invoked w1 = invoked w.
Proof.
  unfold ask. intros H. inversion H; subst. cbn. split; [reflexivity|apply app_nil_r].
Qed.

Lemma await_step {A} (stage : Stage) (f : nat -> outcome_of A) (cid : string)
    (w w1 : World) (a : A) :
  await stage f w = (Returned a, w1) ->
  active_calls w1 !! cid = active_calls w !! cid /\ invoked w1 = invoked w ++ [stage].
Proof.
  unfold await. intros H. inversion H; subst. cbn. split; reflexivity.
Qed.

Lemma mutate_step (f : CallState -> CallState) (cid : string) (w w1 : World) (a : unit) :
  mutate_call cid f w = (Returned a, w1) ->
  active_calls w1 !! cid = f <$> active_calls w !! cid /\ invoked w1 = invoked w.
Proof.
  unfold mutate_call, modify. intros H. inversion H; subst. cbn.
  split; [apply lookup_alter_eq|reflexivity].
Qed.

Lemma the_call_step (cid : string) (w w1 : World) (cs : CallState) :
  the_call cid w = (Returned cs, w1) -> w1 = w /\ active_calls w !! cid = Some cs.
Proof.
  unfold the_call. destruct (active_calls w !! cid); intros H; inversion H; subst.
  split; reflexivity.
Qed.

Lemma analyse_turn_effects (agents : Agents) (cid transcript speaker : string)
    (started : Q) (w w' : World) (r : TurnResult) (cs : CallState) :
  active_calls w !! cid = Some cs ->
  analyse_turn agents cid transcript speaker started w = (Returned r, w') ->
  exists cs' timestamp interpretation response,
    active_calls w' !! cid = Some cs' /\
    transcripts cs' =
      transcripts cs ++
      [{| te_text := transcript; te_timestamp := timestamp; te_speaker := speaker |}] /\
    interpretations cs' = interpretations cs ++ [interpretation] /\
    r_interpretation r = Some interpretation /\
    responses cs' = responses cs ++ [response] /\
    r_ranked_responses r = take 5 (re_ranked_responses response) /\
    selected_persona cs' = r_selected_persona r /\
    current_intent cs' = i_intent interpretation ≫= intent_name /\
    invoked w' = invoked w ++ [SInterpreter; SHistoryRL; SPlanner; SCriticRanker].
Proof.
  intros Hcs H. unfold analyse_turn in H. cbv zeta in H.
  repeat bind_inv H.
  apply (ask_step _ cid) in E as [A0 I0].
  apply mutate_step in E0 as [A1 I1]. rewrite A0, Hcs in A1. cbn in A1.
  apply the_call_step in E1 as [-> L1]. rewrite A1 in L1. inversion L1; subst a1; clear L1.
  apply (await_step _ _ cid) in E2 as [A3 I3]. rewrite A1 in A3.
  apply mutate_step in E3 as [A4 I4]. rewrite A3 in A4. cbn in A4.
  apply the_call_step in E4 as [-> L4]. rewrite A4 in L4. inversion L4; subst a4; clear L4.
  apply (await_step _ _ cid) in E5 as [A6 I6]. rewrite A4 in A6.
  apply mutate_step in E6 as [A7 I7]. rewrite A6 in A7. cbn in A7.
  apply the_call_step in E7 as [-> L7]. rewrite A7 in L7. inversion L7; subst a7; clear L7.
  apply (await_step _ _ cid) in E8 as [A9 I9]. rewrite A7 in A9.
  apply (await_step _ _ cid) in E9 as [A10 I10]. rewrite A9 in A10.
  apply (ask_step _ cid) in E10 as [A11 I11]. rewrite A10 in A11.
  apply mutate_step in E11 as [A12 I12]. rewrite A11 in A12. cbn in A12.
  apply (ask_step _ cid) in E12 as [A13 I13]. rewrite A12 in A13.
  apply (ask_step _ cid) in E13 as [A14 I14]. rewrite A13 in A14.
  assert (A15 : active_calls w15 !! cid = active_calls w14 !! cid /\
                invoked w15 = invoked w14).
  { destruct (Qltb _ _); inversion E14; subst; split; reflexivity. }
  destruct A15 as [A15 I15]. rewrite A14 in A15.
  unfold ret in H. inversion H; subst r w'; clear H.
  eexists. exists a, a2, {| re_timestamp := a10; re_ranked_responses := a9 |}.
  split; [exact A15|]. cbn.
  repeat split.
  rewrite I15, I14, I13, I12, I11, I10, I9, I7, I6, I4, I3, I1, I0.
  rewrite <- !app_assoc. reflexivity.
Qed.

(** A turn that is reported complete was a customer turn with a text
    that is not empty; it left exactly one more transcript, one more
    interpretation and one more response entry in the state of the call;
    it called, after the listener if at all, the interpreter, the history
    agent, the planner and the ranker, once each and in this order; and
    it reports at most five of the ranked responses, the first five. *)
Theorem complete_turn_effects (agents : Agents) (cid : string) (audio : AudioData)
    (speaker : string) (w w' : World) (r : TurnResult) (cs : CallState) :
  active_calls w !! cid = Some cs ->
  process_audio_chunk agents cid audio speaker w = (Returned r, w') ->
  r_status r = "complete" ->
  speaker = "customer" /\
  (length (r_ranked_responses r) <= 5)%nat /\
  exists cs' text timestamp interpretation response heard,
    active_calls w' !! cid = Some cs' /\
    r_transcript r = Some text /\ text <> "" /\
    transcripts cs' =
      transcripts cs ++
      [{| te_text := text; te_timestamp := timestamp; te_speaker := "customer" |}] /\
    interpretations cs' = interpretations cs ++ [interpretation] /\
    responses cs' = responses cs ++ [response] /\
    r_ranked_responses r = take 5 (re_ranked_responses response) /\
    selected_persona cs' = r_selected_persona r /\
    Forall (fun st => st = SListener) heard /\
    invoked w' =
      invoked w ++ heard ++ [SInterpreter; SHistoryRL; SPlanner; SCriticRanker].
Proof.
  intros Hcs H Hstatus. unfold process_audio_chunk in H.
  destruct (ensure_call_spec agents cid w) as (w1 & H1 & _ & Hact1).
  rewrite Hcs in Hact1. subst w1.
  apply bind_returned in H as (u & w1 & E1 & H).
  rewrite H1 in E1. inversion E1; subst u w1; clear E1.
  apply bind_returned in H as (c & w2 & E2 & H).
  apply the_call_step in E2 as [Hw2 _]. subst w2.
  apply bind_returned in H as (started & w3 & E3 & H).
  unfold ask in E3. inversion E3; subst started w3; clear E3.
  unfold try_except in H.
  destruct (turn_body agents cid audio speaker _ _) as [[r0|e] w4] eqn:Hbody.
  - inversion H; subst r0 w4; clear H.
    unfold turn_body in Hbody.
    apply bind_returned in Hbody as (text & w5 & E5 & Hbody).
    destruct (String.eqb_spec text "") as [Hempty|Hfull]; cbn [orb] in Hbody.
    { unfold ret in Hbody. inversion Hbody; subst r. discriminate. }
    destruct (String.eqb_spec speaker "customer") as [Hcust|Hother]; cbn [negb] in Hbody.
    2: { unfold ret in Hbody. inversion Hbody; subst r. discriminate. }
    pose proof (obtain_transcript_spec agents audio (advance None w)) as [Ha Hl].
    rewrite E5 in Ha, Hl. cbn [snd] in Ha, Hl.
    assert (Hcs0 : active_calls w5 !! cid = Some cs).
    { rewrite Ha. exact Hcs. }
    destruct (analyse_turn_effects agents cid text speaker _ w5 w' r cs Hcs0 Hbody)
      as (cs' & ts & interp & resp & Hc' & Ht & Hi & _ & Hr & Hrank & Hp & _ & Hinv).
    destruct (analyse_turn_returned agents cid text speaker _ w5 w' r Hbody) as [_ Htext].
    split; [exact Hcust|]. split.
    + rewrite Hrank, length_take. lia.
    + destruct Hl as (heard & Hheard & Fheard).
      subst speaker. exists cs', text, ts, interp, resp, heard.
      do 9 (split; [assumption|]).
      rewrite Hinv, Hheard. cbn. rewrite app_nil_r, <- app_assoc. reflexivity.
  - unfold bind, log, modify, ret in H. inversion H; subst r. discriminate.
Qed.

Lemma complete_turn_effects_witness :
  exists cs',
    active_calls
      (snd (process_audio_chunk Scenario.working_agents "c1" (Bytes Scenario.hi_bytes)
              "customer" Scenario.world_c1)) !! "c1" = Some cs' /\
    length (transcripts cs') = 2%nat.
Proof.
  assert (Hst : match fst (process_audio_chunk Scenario.working_agents "c1"
                             (Bytes Scenario.hi_bytes) "customer" Scenario.world_c1) with
                | Returned r => r_status r = "complete"
                | Raised _ => False
                end) by (vm_compute; reflexivity).
  destruct (process_audio_chunk Scenario.working_agents "c1" (Bytes Scenario.hi_bytes)
              "customer" Scenario.world_c1) as [[r|e] w'] eqn:Hrun; [|contradiction].
  cbn [fst snd] in *.
  destruct (complete_turn_effects Scenario.working_agents "c1" (Bytes Scenario.hi_bytes)
              "customer" Scenario.world_c1 w' r Scenario.call_c1 eq_refl Hrun Hst)
    as (_ & _ & cs' & text & ts & i & e & heard & Hc & _ & _ & Ht & _).
  exists cs'. split; [exact Hc|].
  rewrite Ht, length_app. reflexivity.
Defined.

(** *** A listener without a speech client *)

Lemma mock_is_not_empty (decode : list Z -> option string) (b : list Z) (final : bool) :
  Listener.transcript (Listener.transcribe_without_client decode b final) <> "".
Proof.
  unfold Listener.transcribe_without_client.
  destruct (decode b) as [text|]; [|discriminate].
  destruct (String.eqb_spec text ""); cbn; [discriminate|assumption].
Qed.

Lemma clientless_transcript (agents : Agents) (b : list Z) (w w' : World) (t : string) :
  clientless agents ->
  obtain_transcript agents (Bytes b) w = (Returned t, w') ->
  t <> "" /\
  (decode_utf8 agents b = None \/ decode_utf8 agents b = Some "" ->
   t = Listener.MOCK_TRANSCRIPT).
Proof.
  intros Hno. unfold obtain_transcript, try_except, listen, await.
  pose proof (Hno (tick w) b) as Hw.
  pose proof (mock_is_not_empty (decode_utf8 agents) b false) as Hne.
  unfold Listener.transcribe_without_client in Hw, Hne |- *.
  destruct (decode_utf8 agents b) as [text|] eqn:Hd.
  - destruct (String.eqb_spec text "") as [->|Hfull]; cbn [negb andb].
    + rewrite Hw. intros H. inversion H; subst. split; [discriminate|reflexivity].
    + cbn [negb] in Hw, Hne. destruct (negb (String.prefix "[Mock:" text)).
      * intros H. inversion H; subst. split; [exact Hfull|].
        intros [Hc|Hc]; [discriminate|inversion Hc; contradiction].
      * rewrite Hw. intros H. inversion H; subst. split; [exact Hfull|].
        intros [Hc|Hc]; [discriminate|inversion Hc; contradiction].
  - cbn [raise]. pose proof (Hno (tick w) b) as Hw'.
    unfold Listener.transcribe_without_client in Hw'. rewrite Hd in Hw'.
    rewrite Hw'. intros H. inversion H; subst. split; [discriminate|reflexivity].
Qed.

(** With a listener that has no speech client, a chunk of bytes from the
    customer is never answered with "processing": audio that is empty or
    does not decode becomes the mock transcript, which is not empty, and
    is analysed as if the customer had said it. *)
Theorem mock_transcript_is_analysed (agents : Agents) (cid : string) (b : list Z)
    (w w' : World) (r : TurnResult) :
  clientless agents ->
  process_audio_chunk agents cid (Bytes b) "customer" w = (Returned r, w') ->
  r_status r <> "processing" /\
  (r_status r = "complete" ->
   decode_utf8 agents b = None \/ decode_utf8 agents b = Some "" ->
   r_transcript r = Some Listener.MOCK_TRANSCRIPT).
Proof.
  intros Hno H. unfold process_audio_chunk in H.
  apply bind_returned in H as (u & w1 & _ & H).
  apply bind_returned in H as (c & w2 & _ & H).
  apply bind_returned in H as (started & w3 & _ & H).
  unfold try_except in H.
  destruct (turn_body agents cid (Bytes b) "customer" _ _) as [[r0|e] w4] eqn:Hbody.
  - inversion H; subst r0 w4; clear H.
    unfold turn_body in Hbody.
    apply bind_returned in Hbody as (text & w5 & E5 & Hbody).
    destruct (clientless_transcript agents b _ _ _ Hno E5) as [Hne Hmock].
    destruct (String.eqb_spec text "") as [Hempty|_]; [contradiction|].
    cbn [orb] in Hbody.
    change (negb ("customer" =? "customer")%string) with false in Hbody.
    destruct (analyse_turn_returned agents cid text "customer" _ _ _ _ Hbody) as [Hs Ht].
    split; [rewrite Hs; discriminate|].
    intros _ Hd. rewrite Ht, (Hmock Hd). reflexivity.
  - unfold bind, log, modify, ret in H. inversion H; subst r.
    split; [discriminate|discriminate].
Qed.

Lemma mock_transcript_is_analysed_witness :
  exists r,
    fst (process_audio_chunk Scenario.offline_agents "c1" (Bytes [255%Z]) "customer"
           Scenario.world_c1) = Returned r /\
    r_status r <> "processing" /\
    r_transcript r = Some Listener.MOCK_TRANSCRIPT.
Proof.
  assert (Hno : clientless Scenario.offline_agents) by (intros n b; reflexivity).
  assert (Hst : match fst (process_audio_chunk Scenario.offline_agents "c1"
                             (Bytes [255%Z]) "customer" Scenario.world_c1) with
                | Returned r => r_status r = "complete"
                | Raised _ => False
                end) by (vm_compute; reflexivity).
  destruct (process_audio_chunk Scenario.offline_agents "c1" (Bytes [255%Z])
              "customer" Scenario.world_c1) as [[r|e] w'] eqn:Hrun; [|contradiction].
  cbn [fst] in *. exists r. split; [reflexivity|].
  destruct (mock_transcript_is_analysed Scenario.offline_agents "c1" [255%Z]
              Scenario.world_c1 w' r Hno Hrun) as [Hproc Hmock].
  split; [exact Hproc|].
  apply Hmock; [exact Hst|]. left. reflexivity.
Defined.

End CallFacts.
